(** * SafetyCopilot: the deterministic core, embedded and verified

    The development follows the Python sources:

    - [src/mini_standard.py]: the knowledge base [mini_standard];
    - [src/tools.py]: [standard_lookup_tool], [risk_estimator_tool],
      [checklist_formatter_tool];
    - [src/eval.py]: [run_pipeline_get_text], [evaluate_systems];
    - [src/agents.py]: [setup_sessions_and_runners] and the module globals.

    Conventions of the embedding.

    - A Python [str] is a [string]; one character is one Unicode code point
      below 256 (the Latin-1 range).  On that range [str.lower] and
      [str.strip] act character by character, and are written out below.
    - A Python [int] is a [Z].
    - A [dict] read with [get] or [[]] is a [gmap]; the dict built by
      [checklist_formatter_tool], whose key order is observable, is an
      association list in insertion order.
    - Exceptions are values of [exn]; a call that may raise returns a
      [result]. *)

From Stdlib Require Import String Ascii ZArith QArith Bool Lia.
From stdpp Require Import gmap strings list fin_maps.

Local Open Scope string_scope.
Local Open Scope Z_scope.

(** ** Python strings *)

Module PyStr.

(** Code point of a character. *)
Definition ord (c : ascii) : N := N_of_ascii c.

(** [str.lower] on one code point below 256: the upper-case letters are
    A..Z (65..90), and in the Latin-1 supplement U+00C0..U+00D6 and
    U+00D8..U+00DE; each has its lower-case form 32 code points above. *)
Definition is_upper (c : ascii) : bool :=
  let n := ord c in
  ((65 <=? n) && (n <=? 90) || (192 <=? n) && (n <=? 214)
   || (216 <=? n) && (n <=? 222))%N.

Definition lower_char (c : ascii) : ascii :=
  if is_upper c then ascii_of_N (ord c + 32) else c.

Fixpoint lower (s : string) : string :=
  match s with
  | EmptyString => EmptyString
  | String c s' => String (lower_char c) (lower s')
  end.

(** [str.isspace] on one code point below 256: TAB..CR, FS..US, SPACE,
    NEL (U+0085) and NBSP (U+00A0). *)
Definition is_space (c : ascii) : bool :=
  let n := ord c in
  ((9 <=? n) && (n <=? 13) || (28 <=? n) && (n <=? 32)
   || (n =? 133) || (n =? 160))%N.

Fixpoint lstrip (s : string) : string :=
  match s with
  | EmptyString => EmptyString
  | String c s' => if is_space c then lstrip s' else s
  end.

Fixpoint rstrip (s : string) : string :=
  match s with
  | EmptyString => EmptyString
  | String c s' =>
      match rstrip s' with
      | EmptyString => if is_space c then EmptyString else String c EmptyString
      | r => String c r
      end
  end.

(** [s.strip()] *)
Definition strip (s : string) : string := rstrip (lstrip s).

(** [s.startswith(p)] *)
Fixpoint startswith (p s : string) : bool :=
  match p, s with
  | EmptyString, _ => true
  | String a p', String b s' => if Ascii.eqb a b then startswith p' s' else false
  | String _ _, EmptyString => false
  end.

(** [kw in text]: [kw] occurs in [text] at some position. *)
Fixpoint contains (kw text : string) : bool :=
  startswith kw text
  || match text with
     | EmptyString => false
     | String _ t => contains kw t
     end.

(** [s.replace(a, b)] for one-character [a] and [b]. *)
Fixpoint replace_char (a b : ascii) (s : string) : string :=
  match s with
  | EmptyString => EmptyString
  | String c s' => String (if Ascii.eqb c a then b else c) (replace_char a b s')
  end.

(** Truthiness of a string: [not s] holds for the empty string only. *)
Definition truthy (s : string) : bool :=
  match s with EmptyString => false | String _ _ => true end.

(** What "occurs as a substring" means. *)
Definition substring_of (kw text : string) : Prop :=
  exists a b, text = a +:+ kw +:+ b.

Definition all_space (s : string) : Prop :=
  forall c, In c (list_ascii_of_string s) -> is_space c = true.

End PyStr.

(** ** tools.py: the risk estimator *)

Definition high_risk_keywords : list string :=
  [ "brake"; "braking"; "steering"; "train"; "railway"; "high-voltage";
    "high voltage"; "battery"; "bms"; "powertrain"; "airbag";
    "collision avoidance" ].

Definition medium_risk_keywords : list string :=
  [ "monitor"; "monitoring"; "diagnostic"; "diagnostics"; "emergency";
    "fail-safe"; "failsafe"; "stability control"; "safety monitoring" ].

(** [for kw in kws: if kw in text: score += w] *)
Definition add_matches (w : Z) (kws : list string) (text : string) (score : Z) : Z :=
  fold_left (fun score kw => if PyStr.contains kw text then score + w else score)
            kws score.

(** The value of [score] when the two loops are over, for the lower-cased
    [text]. *)
Definition risk_score (text : string) : Z :=
  let score := 0 in
  let score := add_matches 2 high_risk_keywords text score in
  let score := add_matches 1 medium_risk_keywords text score in
  score.

Definition risk_estimator_tool (system_description : string) : string :=
  let text := PyStr.lower system_description in
  let score := risk_score text in
  if 3 <=? score then "high"
  else if 1 <=? score then "medium"
  else "low".

(** ** Exceptions *)

Inductive exn : Type :=
| KeyError (key : string)
| RuntimeError (msg : string)
| AttributeError (msg : string)
| ZeroDivisionError.

Inductive result (A : Type) : Type :=
| Ok (a : A)
| Raise (e : exn).
Arguments Ok {A} a.
Arguments Raise {A} e.

Definition result_bind {A B} (r : result A) (k : A -> result B) : result B :=
  match r with
  | Ok a => k a
  | Raise e => Raise e
  end.

(** ** mini_standard.py: the knowledge base *)

(** A dict literal with string keys and string values. *)
Definition dict (kvs : list (string * string)) : gmap string string :=
  list_to_map kvs.

Definition iso26262_profile : list (gmap string string) :=
  [ dict [ ("id", "iso26262-concept-hara"); ("phase", "concept");
           ("topic", "HARA"); ("priority", "high");
           ("summary", "Perform a hazard analysis and risk assessment for the system, identifying potential hazards and their risk levels.") ];
    dict [ ("id", "iso26262-concept-safety-goals"); ("phase", "concept");
           ("topic", "safety_goals"); ("priority", "high");
           ("summary", "Define safety goals that mitigate the most critical hazards and document their rationale.") ];
    dict [ ("id", "iso26262-design-reqs"); ("phase", "design");
           ("topic", "safety_requirements"); ("priority", "high");
           ("summary", "Derive and allocate safety requirements to system, hardware, and software elements.") ];
    dict [ ("id", "iso26262-design-traceability"); ("phase", "design");
           ("topic", "traceability"); ("priority", "medium");
           ("summary", "Ensure traceability from safety goals to technical safety requirements and design elements.") ];
    dict [ ("id", "iso26262-impl-sw-implementation"); ("phase", "implementation");
           ("topic", "sw_implementation"); ("priority", "medium");
           ("summary", "Implement software in accordance with coding guidelines, defensive programming, and safety mechanisms.") ];
    dict [ ("id", "iso262262-verif-test-plan"); ("phase", "verification");
           ("topic", "verification_plan"); ("priority", "high");
           ("summary", "Plan verification and validation activities, including unit, integration, and system-level tests to show that safety requirements are met.") ];
    dict [ ("id", "iso26262-verif-independent-review"); ("phase", "verification");
           ("topic", "independent_review"); ("priority", "medium");
           ("summary", "Schedule independent reviews or assessments for key safety work products.") ];
    dict [ ("id", "iso26262-safety-case"); ("phase", "safety_case");
           ("topic", "safety_case"); ("priority", "high");
           ("summary", "Plan and maintain a safety case that collects evidence and arguments for releasing the system.") ];
    dict [ ("id", "iso26262-safety-manual"); ("phase", "safety_case");
           ("topic", "safety_manual"); ("priority", "medium");
           ("summary", "Prepare safety manuals or usage guidelines for integrators and downstream users.") ] ].

Definition generic_safety_profile : list (gmap string string) :=
  [ dict [ ("id", "generic-risk-assessment"); ("phase", "concept");
           ("topic", "risk_assessment"); ("priority", "high");
           ("summary", "Identify hazards, estimate risks, and decide which risks require mitigation.") ];
    dict [ ("id", "generic-controls"); ("phase", "design");
           ("topic", "controls"); ("priority", "medium");
           ("summary", "Design technical and organizational controls to reduce or monitor risks.") ];
    dict [ ("id", "generic-test"); ("phase", "verification");
           ("topic", "testing"); ("priority", "medium");
           ("summary", "Plan and execute tests or other verification activities to check that controls work as intended.") ];
    dict [ ("id", "generic-documentation"); ("phase", "safety_case");
           ("topic", "documentation"); ("priority", "medium");
           ("summary", "Document assumptions, limitations, and residual risks for stakeholders.") ] ].

Definition mini_standard : gmap string (list (gmap string string)) :=
  <["iso26262" := iso26262_profile]>
    (<["generic_safety" := generic_safety_profile]> ∅).

(** ** tools.py: the lookup *)

(** [d[key]], which raises [KeyError] on a missing key. *)
Definition getitem (d : gmap string string) (key : string) : result string :=
  match d !! key with
  | Some v => Ok v
  | None => Raise (KeyError key)
  end.

(** [[item for item in items if item["phase"] == phase]] *)
Fixpoint items_of_phase (phase : string) (items : list (gmap string string))
  : result (list (gmap string string)) :=
  match items with
  | [] => Ok []
  | item :: rest =>
      result_bind (getitem item "phase") (fun p =>
      result_bind (items_of_phase phase rest) (fun tl =>
      Ok (if String.eqb p phase then item :: tl else tl)))
  end.

Definition standard_lookup_tool (standard phase : string)
  : result (list (gmap string string)) :=
  let items := default [] (mini_standard !! standard) in
  items_of_phase phase items.

(** ** tools.py: the checklist formatter *)

(** [grouped.setdefault(phase, []).append(line)] on a dict kept in insertion
    order: a known key has [line] appended to its list, in place; a new key
    goes last, with the one-line list. *)
Fixpoint setdefault_append (phase line : string) (grouped : list (string * list string))
  : list (string * list string) :=
  match grouped with
  | [] => [(phase, [line])]
  | (k, lines) :: rest =>
      if String.eqb k phase then (k, (lines ++ [line])%list) :: rest
      else (k, lines) :: setdefault_append phase line rest
  end.

(** One turn of the loop over [tasks]. A task is a dict whose values are
    strings; both keys may be missing. *)
Definition format_task (grouped : list (string * list string)) (t : gmap string string)
  : list (string * list string) :=
  let phase := default "general" (t !! "phase") in
  let desc := PyStr.strip (default "" (t !! "description")) in
  if negb (PyStr.truthy desc) then grouped
  else setdefault_append phase ("- [ ] " +:+ desc) grouped.

Definition checklist_formatter_tool (tasks : list (gmap string string))
  : list (string * list string) :=
  fold_left format_task tasks [].

(** [grouped[phase]] read from the result. *)
Fixpoint lines_of (phase : string) (grouped : list (string * list string))
  : option (list string) :=
  match grouped with
  | [] => None
  | (k, lines) :: rest => if String.eqb k phase then Some lines else lines_of phase rest
  end.

(** ** eval.py: coverage of the expected keywords *)

(** The test made on one expected keyword [kw], lines 142-151. *)
Definition keyword_match (text_lower kw : string) : bool :=
  let key := PyStr.lower kw in
  if String.eqb key "hara" then
    PyStr.contains "hara" text_lower || PyStr.contains "hazard analysis" text_lower
  else if String.eqb key "verification_plan" then
    (PyStr.contains "verification" text_lower && PyStr.contains "plan" text_lower)
    || PyStr.contains "test plan" text_lower
  else
    PyStr.contains (PyStr.replace_char "_" " " key) text_lower.

(** [covered] after the loop over [expected]. *)
Definition count_covered (text_lower : string) (expected : list string) : Z :=
  fold_left (fun covered kw => if keyword_match text_lower kw then covered + 1 else covered)
            expected 0.

(** [a / b] on two ints. Python raises [ZeroDivisionError] when [b] is 0 and
    otherwise returns the float nearest to the quotient; the quotient itself
    is kept here, as a fraction. *)
Definition truediv (a b : Z) : result Q :=
  match b with
  | Z0 => Raise ZeroDivisionError
  | Zpos p => Ok (a # p)
  | Zneg p => Ok (- a # p)
  end.

(** [len(expected)] *)
Definition len {A} (l : list A) : Z := Z.of_nat (length l).

(** [covered / max(1, len(expected))], line 156. *)
Definition coverage_ratio (text_lower : string) (expected : list string) : result Q :=
  let covered := count_covered text_lower expected in
  truediv covered (Z.max 1 (len expected)).

(** ** eval.py: the pipeline *)

(** What the code reads of an event of the generation service:
    [event.is_final_response()], [event.content], [event.content.parts] and
    [event.content.parts[0].text]; [None] is Python's [None]. *)
Record Part : Type := { text : option string }.
Record Content : Type := { parts : option (list Part) }.
Record Event : Type := { is_final_response : bool; content : option Content }.

(** A system, with the keys the docstring of [evaluate_systems] lists. *)
Record System : Type := {
  sys_id : string;
  sys_name : string;
  sys_domain : string;
  sys_description : string;
  sys_expected_must_have : list string
}.

(** One row of [rows], as appended at lines 158-168. *)
Record Row : Type := {
  row_id : string;
  row_name : string;
  row_domain : string;
  row_risk : string;
  row_expected_topics : Z;
  row_covered_topics : Z;
  row_coverage_ratio : Q
}.

Definition USER_ID : string := "demo_user".
Definition SESSION_ID_PLANNER : string := "planner_session".
Definition SESSION_ID_CHECKER : string := "checker_session".

(** The steps of a run, in the order they are taken. *)
Inductive step : Type :=
| Estimated (risk_level : string)
| RunAsync (user_id session_id new_message : string).

(** [event.is_final_response() and event.content and event.content.parts] *)
Definition final_with_parts (event : Event) : bool :=
  is_final_response event
  && match content event with
     | Some c => match parts c with
                 | Some (_ :: _) => true
                 | _ => false
                 end
     | None => false
     end.

(** [event.content.parts[0].text], read under the test above. *)
Definition first_part_text (event : Event) : option string :=
  match content event with
  | Some c => match parts c with
              | Some (p :: _) => text p
              | _ => None
              end
  | None => None
  end.

(** The [async for] loop that keeps the text, lines 67-74 and 101-108;
    [txt] is [planner_text] or [checker_text]. *)
Definition capture_text (events : list Event) (txt : option string) : option string :=
  fold_left (fun txt event =>
               if final_with_parts event then first_part_text event else txt)
            events txt.

(** An f-string field for a value that is a string or [None]. *)
Definition fmt (v : option string) : string :=
  match v with
  | Some s => s
  | None => "None"
  end.

Definition nl : string := String "010"%char EmptyString.
Definition dquote : string := String "034"%char EmptyString.

(** Adjacent literals and f-strings, joined. *)
Definition joined (pieces : list string) : string :=
  fold_right String.append EmptyString pieces.

Section Pipeline.

(** The state of the generation service: the sessions and their history. *)
Variable St : Type.

(** The three characters between the 2 and the 4 of line 92 of eval.py;
    two of them lie above code point 255. *)
Variable dash : string.

(** [runner.run_async(user_id, session_id, new_message)]: the events of
    one run, and the state of the service after it. [new_message] is the
    text of the one part of the user content. *)
Definition Runner : Type := string -> string -> string -> St -> list Event * St.

(** The module globals [planner_runner] and [checker_runner]. *)
Variable planner_runner checker_runner : option Runner.

Record world : Type := { service : St; trace : list step }.

(** Computations that read and change the world and may raise. *)
Definition M (A : Type) : Type := world -> result A * world.

Definition ret {A} (a : A) : M A := fun w => (Ok a, w).
Definition raise {A} (e : exn) : M A := fun w => (Raise e, w).
Definition bind {A B} (m : M A) (k : A -> M B) : M B :=
  fun w => match m w with
           | (Ok a, w') => k a w'
           | (Raise e, w') => (Raise e, w')
           end.

Notation "'let*' x ':=' m 'in' k" := (bind m (fun x => k))
  (at level 10, x name, m at level 100, k at level 200).

Definition log (s : step) : M unit :=
  fun w => (Ok tt, {| service := service w; trace := (trace w ++ [s])%list |}).

Definition estimate (description : string) : M string :=
  let risk_level := risk_estimator_tool description in
  let* logged := log (Estimated risk_level) in
  ret risk_level.

Definition run_async (runner : Runner) (user_id session_id new_message : string)
  : M (list Event) :=
  fun w =>
    let '(events, s') := runner user_id session_id new_message (service w) in
    (Ok events,
     {| service := s';
        trace := (trace w ++ [RunAsync user_id session_id new_message])%list |}).

Definition planner_input (description domain standard risk_level : string) : string :=
  joined
    [ "System description:"; nl; description; nl; nl;
      "Domain: "; domain; nl;
      "Target standard: "; standard; nl;
      "Risk level (pre-estimated): "; risk_level; nl; nl;
      "Your task:"; nl;
      "1. Propose a safety and compliance work plan for this system, ";
      "grouped by phase."; nl;
      "2. Mention key concepts such as HARA / risk assessment, safety goals,"; nl;
      "   safety requirements, verification / test plan, and safety case ";
      "where appropriate."; nl;
      "3. Keep the answer concise (ideally under 200 words)."; nl ].

Definition checker_input (description domain standard risk_level : string)
           (planner_text : option string) : string :=
  joined
    [ "System description:"; nl; description; nl; nl;
      "Domain: "; domain; nl;
      "Target standard: "; standard; nl;
      "Risk level: "; risk_level; nl; nl;
      "Current checklist or plan from the PlannerAgent:"; nl;
      dquote; dquote; dquote; fmt planner_text; dquote; dquote; dquote; nl; nl;
      "Your task:"; nl;
      "1. Check whether the checklist includes at least the following ";
      "critical concepts for medium and high risk systems: HARA / ";
      "risk assessment, safety goals, verification or test plan, and ";
      "safety case or safety documentation."; nl;
      "2. If something is missing, add additional checklist items to fill ";
      "the gaps."; nl;
      "3. Return an updated grouped checklist plus a short textual review ";
      "(2"; dash; "4 bullet points)."; nl;
      "4. Keep the whole answer concise (ideally under 200 words)."; nl ].

Definition run_pipeline_get_text (system : System) (standard : string)
  : M (option string) :=
  match planner_runner, checker_runner with
  | Some planner, Some checker =>
      let description := sys_description system in
      let domain := sys_domain system in
      let* risk_level := estimate description in
      let planner_text := Some EmptyString in
      let* events := run_async planner USER_ID SESSION_ID_PLANNER
                       (planner_input description domain standard risk_level) in
      let planner_text := capture_text events planner_text in
      let checker_text := Some EmptyString in
      let* events := run_async checker USER_ID SESSION_ID_CHECKER
                       (checker_input description domain standard risk_level planner_text) in
      let checker_text := capture_text events checker_text in
      ret checker_text
  | _, _ => raise (RuntimeError "Agents (Planner/Checker) are not initialized.")
  end.

(** One turn of the loop of [evaluate_systems], lines 134-168: the row
    that is appended for [s]. *)
Definition evaluate_one (s : System) (standard : string) : M Row :=
  let* final_text := run_pipeline_get_text s standard in
  match final_text with
  | None => raise (AttributeError "'NoneType' object has no attribute 'lower'")
  | Some final_text =>
      let text_lower := PyStr.lower final_text in
      let expected := sys_expected_must_have s in
      let covered := count_covered text_lower expected in
      match coverage_ratio text_lower expected with
      | Raise e => raise e
      | Ok ratio =>
          ret {| row_id := sys_id s;
                 row_name := sys_name s;
                 row_domain := sys_domain s;
                 row_risk := risk_estimator_tool (sys_description s);
                 row_expected_topics := len expected;
                 row_covered_topics := covered;
                 row_coverage_ratio := ratio |}
      end
  end.

(** [rows] when the loop of [evaluate_systems] is over (line 169); the
    data frame made of it afterwards is not part of the model. *)
Fixpoint evaluate_systems_rows (systems : list System) (standard : string)
         (rows : list Row) : M (list Row) :=
  match systems with
  | [] => ret rows
  | s :: rest =>
      let* row := evaluate_one s standard in
      evaluate_systems_rows rest standard (rows ++ [row])%list
  end.

End Pipeline.

Arguments service {St} _.
Arguments trace {St} _.

(** ** The checklist, as the specification words it *)

Definition task_phase (t : gmap string string) : string :=
  default "general" (t !! "phase").

Definition task_description (t : gmap string string) : string :=
  PyStr.strip (default "" (t !! "description")).

(** The (phase, line) pairs of the tasks that are kept, in input order. *)
Definition checklist_entries (tasks : list (gmap string string)) : list (string * string) :=
  omap (fun t => if decide (task_description t = "") then None
                 else Some (task_phase t, "- [ ] " +:+ task_description t))
       tasks.

(** The distinct elements of a list, each at the place it is first seen. *)
Fixpoint first_seen (l : list string) : list string :=
  match l with
  | [] => []
  | x :: l' => x :: filter (fun y => y <> x) (first_seen l')
  end.

(** The lines of one phase, in input order. *)
Definition phase_lines (phase : string) (entries : list (string * string)) : list string :=
  (filter (fun e => e.1 = phase) entries).*2.

Definition grouped_by_phase (entries : list (string * string)) : list (string * list string) :=
  (fun p => (p, phase_lines p entries)) <$> first_seen (entries.*1).

(** ** The captured text, as the specification words it *)

(** The last event of the stream that says it is a final response. *)
Definition last_final (events : list Event) : option Event :=
  last (filter (fun e => is_final_response e = true) events).

(** The last final response that has a part to read. *)
Definition last_final_with_parts (events : list Event) : option Event :=
  last (filter (fun e => final_with_parts e = true) events).

(** ** Sample values *)

(** An event that is not final, a final response with one text part, and a
    final response without content. *)
Definition partial_event (s : string) : Event :=
  {| is_final_response := false;
     content := Some {| parts := Some [ {| text := Some s |} ] |} |}.

Definition final_event (s : string) : Event :=
  {| is_final_response := true;
     content := Some {| parts := Some [ {| text := Some s |} ] |} |}.

Definition final_event_no_content : Event :=
  {| is_final_response := true; content := None |}.

(** A runner over a service that counts its runs: it streams one partial
    event and one final response that holds [reply]. *)
Definition reply_runner (reply : string) : Runner nat :=
  fun _ _ _ runs => ([partial_event reply; final_event reply], S runs).

Definition brake_ecu : System :=
  {| sys_id := "sys-1";
     sys_name := "Brake ECU";
     sys_domain := "automotive";
     sys_description := "Brake control ECU on a high-voltage platform";
     sys_expected_must_have := ["HARA"; "safety_goals"] |}.

Definition brake_ecu_no_topics : System :=
  {| sys_id := "sys-1";
     sys_name := "Brake ECU";
     sys_domain := "automotive";
     sys_description := "Brake control ECU on a high-voltage platform";
     sys_expected_must_have := [] |}.

(** A final response whose one part has no text, and a runner that streams
    it. *)
Definition final_event_no_text : Event :=
  {| is_final_response := true;
     content := Some {| parts := Some [ {| text := None |} ] |} |}.

Definition no_text_runner : Runner nat :=
  fun _ _ _ runs => ([final_event_no_text], S runs).

(** ** agents.py: sessions and runners *)

Definition APP_NAME : string := "safety_copilot_app".

Section Agents.

(** The state of the session service, and an agent as [LlmAgent] builds
    it. *)
Variables (St : Type) (Agent : Type).

(** [session_service.create_session(app_name, user_id, session_id)], which
    may raise. *)
Variable create_session : string -> string -> string -> St -> result unit * St.

(** [Runner(agent=..., app_name=..., session_service=session_service)] *)
Variable make_runner : Agent -> string -> Runner St.

(** The module globals of agents.py that the setup reads and writes. *)
Record agents_globals : Type := {
  planner_agent : option Agent;
  checker_agent : option Agent;
  planner_runner : option (Runner St);
  checker_runner : option (Runner St)
}.

(** The globals when the module has been loaded, lines 157-195: the agents
    as their construction left them, no runner yet. *)
Definition agents_loaded (planner checker : option Agent) : agents_globals :=
  {| planner_agent := planner;
     checker_agent := checker;
     planner_runner := None;
     checker_runner := None |}.

(** [setup_sessions_and_runners()]: the result, the globals and the service
    after the call. *)
Definition setup_sessions_and_runners (g : agents_globals) (s : St)
  : result unit * agents_globals * St :=
  match create_session APP_NAME USER_ID SESSION_ID_PLANNER s with
  | (Raise e, s) => (Raise e, g, s)
  | (Ok _, s) =>
      match create_session APP_NAME USER_ID SESSION_ID_CHECKER s with
      | (Raise e, s) => (Raise e, g, s)
      | (Ok _, s) =>
          let g :=
            match planner_agent g with
            | Some agent =>
                {| planner_agent := planner_agent g;
                   checker_agent := checker_agent g;
                   planner_runner := Some (make_runner agent APP_NAME);
                   checker_runner := checker_runner g |}
            | None => g
            end in
          let g :=
            match checker_agent g with
            | Some agent =>
                {| planner_agent := planner_agent g;
                   checker_agent := checker_agent g;
                   planner_runner := planner_runner g;
                   checker_runner := Some (make_runner agent APP_NAME) |}
            | None => g
            end in
          (Ok tt, g, s)
      end
  end.

(** [from agents import planner_runner, checker_runner, ...] at the head of
    eval.py: the two names of eval.py are bound, when eval.py is loaded, to
    the values the globals of agents.py have then. *)
Record eval_globals : Type := {
  eval_planner_runner : option (Runner St);
  eval_checker_runner : option (Runner St)
}.

Definition from_agents_import (g : agents_globals) : eval_globals :=
  {| eval_planner_runner := planner_runner g;
     eval_checker_runner := checker_runner g |}.

(** [run_pipeline_get_text] as eval.py runs it, on its own two names. *)
Definition eval_run_pipeline_get_text (dash : string) (names : eval_globals)
           (system : System) (standard : string) : M St (option string) :=
  run_pipeline_get_text St dash (eval_planner_runner names) (eval_checker_runner names)
                        system standard.

End Agents.

Arguments planner_agent {St Agent} _.
Arguments checker_agent {St Agent} _.
Arguments planner_runner {St Agent} _.
Arguments checker_runner {St Agent} _.
Arguments eval_planner_runner {St} _.
Arguments eval_checker_runner {St} _.

(** A session service that counts what is made on it, and runners that
    answer with the name of their agent. *)
Definition counting_create_session : string -> string -> string -> nat -> result unit * nat :=
  fun _ _ _ made => (Ok tt, S made).

Definition named_runner (agent : string) (app_name : string) : Runner nat :=
  reply_runner agent.

(** ** Facts on strings *)

Module PyStrFacts.
Import PyStr.

Lemma startswith_app (p b : string) : startswith p (p +:+ b) = true.
Proof.
  induction p as [|c p IH]; simpl; [done|].
  by rewrite Ascii.eqb_refl.
Qed.

Lemma startswith_inv (p s : string) :
  startswith p s = true -> exists b, s = p +:+ b.
Proof.
  revert s. induction p as [|c p IH]; intros s H.
  - by exists s.
  - destruct s as [|d s]; simpl in H; [done|].
    destruct (Ascii.eqb c d) eqn:E; [|done].
    apply Ascii.eqb_eq in E as ->.
    destruct (IH _ H) as [b ->]. by exists b.
Qed.

Lemma contains_unfold (kw text : string) :
  contains kw text
  = startswith kw text
    || match text with EmptyString => false | String _ t => contains kw t end.
Proof. by destruct text. Qed.

Lemma contains_intro (a kw b : string) : contains kw (a +:+ kw +:+ b) = true.
Proof.
  induction a as [|c a IH].
  - change ("" +:+ kw +:+ b) with (kw +:+ b).
    rewrite contains_unfold, startswith_app. done.
  - change (String c a +:+ kw +:+ b) with (String c (a +:+ kw +:+ b)).
    cbn [contains]. rewrite IH. apply orb_true_r.
Qed.

Lemma contains_spec (kw text : string) :
  contains kw text = true <-> substring_of kw text.
Proof.
  split.
  - induction text as [|c t IH]; cbn [contains]; intros H.
    + rewrite orb_false_r in H. apply startswith_inv in H as [b ->].
      by exists "", b.
    + apply orb_true_iff in H as [H|H].
      * apply startswith_inv in H as [b ->]. by exists "", b.
      * destruct (IH H) as (a & b & ->). by exists (String c a), b.
  - intros (a & b & ->). apply contains_intro.
Qed.

Lemma contains_false (kw text : string) :
  contains kw text = false <-> ~ substring_of kw text.
Proof.
  rewrite <- contains_spec. destruct (contains kw text); naive_solver.
Qed.

Lemma contains_iff_eq (kw t1 t2 : string) :
  (substring_of kw t1 <-> substring_of kw t2) -> contains kw t1 = contains kw t2.
Proof.
  rewrite <- !contains_spec.
  destruct (contains kw t1), (contains kw t2); intros [H1 H2]; try done.
  - symmetry. by apply H1.
  - by apply H2.
Qed.

Lemma lower_app (a b : string) : lower (a +:+ b) = lower a +:+ lower b.
Proof. induction a as [|c a IH]; simpl; [done|]. by rewrite IH. Qed.

(** A keyword that is its own lower-case form survives lower-casing of
    the text around it. *)
Lemma substring_of_lower (kw d : string) :
  lower kw = kw -> substring_of kw d -> substring_of kw (lower d).
Proof.
  intros Hkw (a & b & ->). exists (lower a), (lower b).
  by rewrite !lower_app, Hkw.
Qed.

End PyStrFacts.

(** ** The risk estimator *)

Section RiskFacts.
Import PyStr PyStrFacts.

(** The loop adds [w] once for each keyword of [kws] found in [text]. *)
Lemma add_matches_count (w : Z) (kws : list string) (text : string) (score : Z) :
  add_matches w kws text score
  = score + w * len (filter (fun kw => contains kw text = true) kws).
Proof.
  unfold add_matches, len. revert score.
  induction kws as [|kw kws IH]; intros score; simpl.
  - lia.
  - rewrite IH, filter_cons.
    destruct (contains kw text); case_decide; try done; simpl length; lia.
Qed.

Lemma add_matches_ext (w : Z) (kws : list string) (t1 t2 : string) (score : Z) :
  (forall kw, kw ∈ kws -> contains kw t1 = contains kw t2) ->
  add_matches w kws t1 score = add_matches w kws t2 score.
Proof.
  unfold add_matches. revert score.
  induction kws as [|kw kws IH]; intros score H; simpl; [done|].
  rewrite (H kw) by left.
  apply IH. intros k Hk. apply H. by right.
Qed.

Lemma risk_score_count (text : string) :
  risk_score text
  = 2 * len (filter (fun kw => contains kw text = true) high_risk_keywords)
    + 1 * len (filter (fun kw => contains kw text = true) medium_risk_keywords).
Proof. unfold risk_score. rewrite !add_matches_count. lia. Qed.

Lemma elem_of_matches (kws : list string) (text kw : string) :
  kw ∈ filter (fun kw => contains kw text = true) kws
  <-> kw ∈ kws /\ substring_of kw text.
Proof.
  rewrite <- contains_spec. split.
  - intros H. by apply list_elem_of_filter in H as [? ?].
  - intros [? ?]. by apply list_elem_of_filter.
Qed.

Lemma high_risk_keywords_NoDup : NoDup high_risk_keywords.
Proof. refine (bool_decide_unpack _ _). by vm_compute. Qed.

Lemma medium_risk_keywords_NoDup : NoDup medium_risk_keywords.
Proof. refine (bool_decide_unpack _ _). by vm_compute. Qed.

Lemma risk_level_of_score (d : string) :
  let score := risk_score (lower d) in
  (3 <= score -> risk_estimator_tool d = "high")
  /\ (1 <= score < 3 -> risk_estimator_tool d = "medium")
  /\ (score < 1 -> risk_estimator_tool d = "low").
Proof.
  unfold risk_estimator_tool. cbv zeta.
  repeat split; intros H.
  - by rewrite (proj2 (Z.leb_le _ _)) by lia.
  - rewrite (proj2 (Z.leb_gt _ _)) by lia.
    by rewrite (proj2 (Z.leb_le _ _)) by lia.
  - by rewrite !(proj2 (Z.leb_gt _ _)) by lia.
Qed.

(** Two different keywords of the high-risk list that occur in the text
    weigh 4 together. *)
Lemma two_high_matches (text k1 k2 : string) :
  k1 <> k2 -> k1 ∈ high_risk_keywords -> k2 ∈ high_risk_keywords ->
  substring_of k1 text -> substring_of k2 text ->
  4 <= risk_score text.
Proof.
  intros Hne H1 H2 S1 S2. rewrite risk_score_count.
  assert ([k1; k2] ⊆+ filter (fun kw => contains kw text = true) high_risk_keywords)
    as Hsub.
  { apply NoDup_submseteq.
    - apply NoDup_cons. split; [|apply NoDup_singleton].
      intros Hin. by apply list_elem_of_singleton in Hin.
    - intros x Hx. apply elem_of_matches.
      apply elem_of_cons in Hx as [->|Hx]; [done|].
      apply list_elem_of_singleton in Hx as ->. done. }
  apply submseteq_length in Hsub. simpl in Hsub. unfold len. lia.
Qed.

End RiskFacts.

(** C1. For every description, the score of [risk_estimator_tool] is twice
    the number of high-risk keywords that occur in the lower-cased text plus
    the number of medium-risk keywords that occur in it, each keyword of the
    two lists of the specification counted once; the result is "high" for a
    score of 3 or more, "medium" for 1 or 2 and "low" for 0, and one of the
    three cases always applies. *)
Theorem risk_estimator_tool_spec (d : string) :
  let text := PyStr.lower d in
  exists high medium : list string,
    NoDup high /\ NoDup medium
    /\ (forall kw, kw ∈ high <->
          kw ∈ [ "brake"; "braking"; "steering"; "train"; "railway";
                 "high-voltage"; "high voltage"; "battery"; "bms";
                 "powertrain"; "airbag"; "collision avoidance" ]
          /\ PyStr.substring_of kw text)
    /\ (forall kw, kw ∈ medium <->
          kw ∈ [ "monitor"; "monitoring"; "diagnostic"; "diagnostics";
                 "emergency"; "fail-safe"; "failsafe"; "stability control";
                 "safety monitoring" ]
          /\ PyStr.substring_of kw text)
    /\ let score := 2 * len high + 1 * len medium in
       risk_score text = score
       /\ (3 <= score -> risk_estimator_tool d = "high")
       /\ (1 <= score < 3 -> risk_estimator_tool d = "medium")
       /\ (score = 0 -> risk_estimator_tool d = "low")
       /\ (3 <= score \/ 1 <= score < 3 \/ score = 0).
Proof.
  intros text.
  exists (filter (fun kw => PyStr.contains kw text = true) high_risk_keywords),
         (filter (fun kw => PyStr.contains kw text = true) medium_risk_keywords).
  split; [apply NoDup_filter, high_risk_keywords_NoDup|].
  split; [apply NoDup_filter, medium_risk_keywords_NoDup|].
  split; [intros kw; apply elem_of_matches|].
  split; [intros kw; apply elem_of_matches|].
  cbv zeta. rewrite <- risk_score_count.
  destruct (risk_level_of_score d) as (Hhigh & Hmedium & Hlow).
  fold text in Hhigh, Hmedium, Hlow.
  assert (0 <= risk_score text) as Hnonneg.
  { rewrite risk_score_count. unfold len. lia. }
  repeat split; try done.
  - intros H0. apply Hlow. lia.
  - lia.
Qed.

Lemma risk_estimator_tool_spec_witness :
  risk_estimator_tool "Brake MONITOR unit" = "high".
Proof.
  destruct (risk_estimator_tool_spec "Brake MONITOR unit")
    as (high & medium & _ & _ & _ & _ & Hscore & Hhigh & _).
  apply Hhigh. rewrite <- Hscore. by vm_compute.
Defined.

(** C8. A description in which both "brake" and "high-voltage" occur scores
    at least 4 and is classified "high". *)
Theorem brake_and_high_voltage_is_high (d : string) :
  PyStr.substring_of "brake" d ->
  PyStr.substring_of "high-voltage" d ->
  4 <= risk_score (PyStr.lower d) /\ risk_estimator_tool d = "high".
Proof.
  intros Hbrake Hhv.
  assert (4 <= risk_score (PyStr.lower d)) as Hscore.
  { apply (two_high_matches _ "brake" "high-voltage"); try done.
    - set_solver.
    - set_solver.
    - by apply PyStrFacts.substring_of_lower.
    - by apply PyStrFacts.substring_of_lower. }
  split; [done|].
  apply risk_level_of_score. lia.
Qed.

Lemma brake_and_high_voltage_is_high_witness :
  4 <= risk_score (PyStr.lower "a brake ECU on the high-voltage bus")
  /\ risk_estimator_tool "a brake ECU on the high-voltage bus" = "high".
Proof.
  apply brake_and_high_voltage_is_high.
  - apply PyStrFacts.contains_spec. reflexivity.
  - apply PyStrFacts.contains_spec. reflexivity.
Defined.

(** C9. The score depends only on which keywords occur in the lower-cased
    text, not on how often: two descriptions in which the same keywords
    occur have the same score and the same level. The word "brake" three
    times over, in which no other keyword occurs, scores 2 and is "medium". *)
Theorem score_counts_each_keyword_once :
  (forall d1 d2 : string,
     (forall kw, kw ∈ (high_risk_keywords ++ medium_risk_keywords)%list ->
        (PyStr.substring_of kw (PyStr.lower d1)
         <-> PyStr.substring_of kw (PyStr.lower d2))) ->
     risk_score (PyStr.lower d1) = risk_score (PyStr.lower d2)
     /\ risk_estimator_tool d1 = risk_estimator_tool d2)
  /\ (forall kw, kw ∈ (high_risk_keywords ++ medium_risk_keywords)%list ->
        PyStr.substring_of kw (PyStr.lower "brake brake brake") -> kw = "brake")
  /\ risk_score (PyStr.lower "brake brake brake") = 2
  /\ risk_estimator_tool "brake brake brake" = "medium".
Proof.
  split; [|split; [|split; reflexivity]].
  - intros d1 d2 H.
    assert (risk_score (PyStr.lower d1) = risk_score (PyStr.lower d2)) as E.
    { unfold risk_score.
      rewrite (add_matches_ext 2 _ (PyStr.lower d1) (PyStr.lower d2)).
      - apply add_matches_ext. intros kw Hkw.
        apply PyStrFacts.contains_iff_eq, H, elem_of_app. by right.
      - intros kw Hkw.
        apply PyStrFacts.contains_iff_eq, H, elem_of_app. by left. }
    split; [done|]. unfold risk_estimator_tool. by rewrite E.
  - intros kw Hin Hsub. apply PyStrFacts.contains_spec in Hsub.
    revert kw Hin Hsub.
    refine (proj1 (Forall_forall
                     (fun kw => PyStr.contains kw _ = true -> kw = "brake") _) _).
    repeat (apply Forall_cons; split; [by vm_compute|]). apply Forall_nil_2.
Qed.

Lemma score_counts_each_keyword_once_witness :
  risk_score (PyStr.lower "BRAKE, brake and brake again") = risk_score (PyStr.lower "brake")
  /\ risk_estimator_tool "BRAKE, brake and brake again" = risk_estimator_tool "brake".
Proof.
  apply (proj1 score_counts_each_keyword_once).
  refine (proj1 (Forall_forall
                   (fun kw => PyStr.substring_of kw _ <-> PyStr.substring_of kw _) _) _).
  repeat (apply Forall_cons; split;
          [rewrite <- !PyStrFacts.contains_spec; by vm_compute|]).
  apply Forall_nil_2.
Defined.

(** ** The lookup *)

Section LookupFacts.

(** On items that all have a "phase", the comprehension is the filter and
    does not raise. *)
Lemma items_of_phase_filter (phase : string) (items : list (gmap string string)) :
  Forall (fun item => is_Some (item !! "phase")) items ->
  items_of_phase phase items
  = Ok (filter (fun item => item !! "phase" = Some phase) items).
Proof.
  induction 1 as [|item items [p Hp] _ IH]; simpl; [done|].
  unfold getitem. rewrite Hp. simpl. rewrite IH. simpl.
  rewrite filter_cons, Hp.
  destruct (String.eqb_spec p phase) as [->|Hne]; case_decide; congruence.
Qed.

Lemma iso26262_profile_phases :
  Forall (fun item => is_Some (item !! "phase")) iso26262_profile.
Proof. repeat (apply Forall_cons; split; [by eexists|]). apply Forall_nil_2. Qed.

Lemma generic_safety_profile_phases :
  Forall (fun item => is_Some (item !! "phase")) generic_safety_profile.
Proof. repeat (apply Forall_cons; split; [by eexists|]). apply Forall_nil_2. Qed.

(** Every profile of the knowledge base is made of items with a "phase". *)
Lemma mini_standard_phases (standard : string) :
  Forall (fun item => is_Some (item !! "phase")) (default [] (mini_standard !! standard)).
Proof.
  unfold mini_standard.
  destruct (decide ("iso26262" = standard)) as [<-|Hiso].
  { rewrite lookup_insert_eq. apply iso26262_profile_phases. }
  rewrite lookup_insert_ne by done.
  destruct (decide ("generic_safety" = standard)) as [<-|Hgen].
  { rewrite lookup_insert_eq. apply generic_safety_profile_phases. }
  rewrite lookup_insert_ne by done. rewrite lookup_empty. apply Forall_nil_2.
Qed.

End LookupFacts.

(** C2. For every standard and phase, [standard_lookup_tool] does not raise
    and returns the entries of the standard's profile whose "phase" is the
    requested one, in the order of the profile; for a standard that is not a
    key of the knowledge base the result is empty. *)
Theorem standard_lookup_tool_spec (standard phase : string) :
  standard_lookup_tool standard phase
  = Ok (filter (fun item => item !! "phase" = Some phase)
               (default [] (mini_standard !! standard)))
  /\ (mini_standard !! standard = None -> standard_lookup_tool standard phase = Ok []).
Proof.
  assert (standard_lookup_tool standard phase
          = Ok (filter (fun item => item !! "phase" = Some phase)
                       (default [] (mini_standard !! standard)))) as E.
  { apply items_of_phase_filter, mini_standard_phases. }
  split; [done|].
  intros Hnone. rewrite E, Hnone. done.
Qed.

Lemma standard_lookup_tool_spec_witness :
  standard_lookup_tool "iec61508" "concept" = Ok [].
Proof.
  apply (proj2 (standard_lookup_tool_spec "iec61508" "concept")).
  by vm_compute.
Defined.

(** ** Facts on [strip] *)

Module StripFacts.
Import PyStr.

Lemma all_space_nil : all_space "".
Proof. intros c []. Qed.

Lemma all_space_cons (c : ascii) (s : string) :
  all_space (String c s) <-> is_space c = true /\ all_space s.
Proof.
  unfold all_space. simpl. split.
  - intros H. split; [apply H; by left|]. intros d Hd. apply H. by right.
  - intros [Hc Hs] d [<-|Hd]; [done|]. by apply Hs.
Qed.

Lemma lstrip_all_space (s : string) : all_space (lstrip s) -> all_space s.
Proof.
  induction s as [|c s IH]; simpl; [done|].
  destruct (is_space c) eqn:Ec; [|done].
  intros H. apply all_space_cons. auto.
Qed.

Lemma lstrip_of_all_space (s : string) : all_space s -> lstrip s = "".
Proof.
  induction s as [|c s IH]; simpl; [done|].
  intros [Hc Hs]%all_space_cons. rewrite Hc. auto.
Qed.

Lemma rstrip_empty (s : string) : rstrip s = "" <-> all_space s.
Proof.
  induction s as [|c s IH]; simpl.
  - split; [intros _; apply all_space_nil|done].
  - rewrite all_space_cons, <- IH.
    destruct (rstrip s); destruct (is_space c); split; try done; intros []; done.
Qed.

Lemma strip_empty (s : string) : strip s = "" <-> all_space s.
Proof.
  unfold strip. rewrite rstrip_empty. split.
  - apply lstrip_all_space.
  - intros H. rewrite (lstrip_of_all_space s H). apply all_space_nil.
Qed.

Lemma rstrip_idemp (s : string) : rstrip (rstrip s) = rstrip s.
Proof.
  induction s as [|c s IH]; [done|].
  cbn [rstrip]. destruct (rstrip s) as [|d r] eqn:Er.
  - destruct (is_space c) eqn:Ec; [done|]. simpl. by rewrite Ec.
  - cbn [rstrip]. cbn [rstrip] in IH. by rewrite IH.
Qed.

Lemma lstrip_head (s : string) :
  lstrip s = "" \/ exists c u, lstrip s = String c u /\ is_space c = false.
Proof.
  induction s as [|c s IH]; simpl; [by left|].
  destruct (is_space c) eqn:Ec; [done|]. right. by exists c, s.
Qed.

Lemma rstrip_head (c : ascii) (u : string) :
  is_space c = false -> exists r, rstrip (String c u) = String c r.
Proof.
  intros Hc. cbn [rstrip]. destruct (rstrip u) as [|d r].
  - rewrite Hc. by eexists.
  - by eexists.
Qed.

(** A stripped string has nothing left to strip. *)
Lemma strip_idemp (s : string) : strip (strip s) = strip s.
Proof.
  unfold strip.
  assert (lstrip (rstrip (lstrip s)) = rstrip (lstrip s)) as ->.
  { destruct (lstrip_head s) as [->|(c & u & -> & Hc)]; [done|].
    destruct (rstrip_head c u Hc) as [r ->]. simpl. by rewrite Hc. }
  apply rstrip_idemp.
Qed.

End StripFacts.

(** ** The checklist formatter *)

Section FormatterFacts.

Lemma first_seen_elem (x : string) (l : list string) : x ∈ first_seen l <-> x ∈ l.
Proof.
  induction l as [|y l IH]; simpl; [done|].
  rewrite !elem_of_cons, (list_elem_of_filter (fun z => z <> y)), IH.
  destruct (decide (x = y)); tauto.
Qed.

Lemma first_seen_NoDup (l : list string) : NoDup (first_seen l).
Proof.
  induction l as [|y l IH]; simpl; [apply NoDup_nil_2|].
  apply NoDup_cons. split.
  - rewrite (list_elem_of_filter (fun z => z <> y)). tauto.
  - by apply NoDup_filter.
Qed.

Lemma first_seen_snoc (l : list string) (x : string) :
  first_seen (l ++ [x])
  = if decide (x ∈ l) then first_seen l else (first_seen l ++ [x])%list.
Proof.
  induction l as [|y l IH]; simpl.
  - rewrite filter_nil. destruct (decide (x ∈ [])) as [Hin|_]; [|done].
    by apply not_elem_of_nil in Hin.
  - rewrite IH. destruct (decide (x ∈ l)) as [Hin|Hnin].
    + by rewrite decide_True by (by right).
    + rewrite filter_app, filter_cons, filter_nil.
      destruct (decide (x = y)) as [->|Hne].
      * rewrite (decide_False (P := y <> y)) by (intros H; by apply H).
        rewrite (decide_True (P := y ∈ y :: l)) by left.
        by rewrite app_nil_r.
      * rewrite (decide_True (P := x <> y)) by done.
        rewrite (decide_False (P := x ∈ y :: l)); [done|].
        rewrite elem_of_cons. tauto.
Qed.

Lemma phase_lines_snoc (p : string) (entries : list (string * string)) (e : string * string) :
  phase_lines p (entries ++ [e])
  = (phase_lines p entries ++ if decide (e.1 = p) then [e.2] else [])%list.
Proof.
  unfold phase_lines. rewrite filter_app, fmap_app, filter_cons, filter_nil.
  by case_decide.
Qed.

Lemma phase_lines_absent (p : string) (entries : list (string * string)) :
  p ∉ entries.*1 -> phase_lines p entries = [].
Proof.
  intros Hnin. unfold phase_lines.
  induction entries as [|e entries IH]; [done|].
  rewrite fmap_cons, not_elem_of_cons in Hnin. destruct Hnin as [Hne Hnin].
  rewrite filter_cons, decide_False by done. by apply IH.
Qed.

(** [setdefault(...).append(...)] on a dict laid out by a function of its
    keys. *)
Lemma setdefault_append_fmap (k v : string) (g : string -> list string) (ps : list string) :
  NoDup ps ->
  setdefault_append k v ((fun p => (p, g p)) <$> ps)
  = if decide (k ∈ ps)
    then (fun p => (p, (g p ++ if decide (k = p) then [v] else [])%list)) <$> ps
    else (((fun p => (p, g p)) <$> ps) ++ [(k, [v])])%list.
Proof.
  induction 1 as [|p ps Hp Hnd IH]; [done|].
  rewrite !fmap_cons. cbn [setdefault_append].
  destruct (String.eqb_spec p k) as [->|Hne].
  - rewrite (decide_True (P := k ∈ k :: ps)) by left.
    rewrite (decide_True (P := k = k)) by done. f_equal.
    apply list_fmap_ext. intros i q Hq.
    rewrite decide_False; [by rewrite app_nil_r|].
    intros ->. apply Hp. by eapply list_elem_of_lookup_2.
  - rewrite IH. rewrite (decide_False (P := k = p)) by congruence.
    rewrite app_nil_r.
    destruct (decide (k ∈ ps)) as [Hin|Hnin].
    + by rewrite (decide_True (P := k ∈ p :: ps)) by (by right).
    + rewrite (decide_False (P := k ∈ p :: ps)); [done|].
      rewrite elem_of_cons. intros [E|Hin]; [by symmetry in E|done].
Qed.

Lemma grouped_by_phase_snoc (entries : list (string * string)) (e : string * string) :
  grouped_by_phase (entries ++ [e])
  = setdefault_append e.1 e.2 (grouped_by_phase entries).
Proof.
  unfold grouped_by_phase.
  rewrite (setdefault_append_fmap _ _ (fun p => phase_lines p entries))
    by apply first_seen_NoDup.
  rewrite fmap_app. simpl. rewrite first_seen_snoc.
  destruct (decide (e.1 ∈ entries.*1)) as [Hin|Hnin].
  - rewrite decide_True by (by apply first_seen_elem).
    apply list_fmap_ext. intros i p _. by rewrite phase_lines_snoc.
  - rewrite decide_False by (by rewrite first_seen_elem).
    rewrite fmap_app. simpl. f_equal.
    + apply list_fmap_ext. intros i p Hp. rewrite phase_lines_snoc.
      rewrite decide_False; [by rewrite app_nil_r|].
      intros E. apply Hnin. rewrite E.
      apply first_seen_elem. by eapply list_elem_of_lookup_2.
    + rewrite phase_lines_snoc, phase_lines_absent by done.
      by rewrite decide_True.
Qed.

Lemma truthy_false (s : string) : PyStr.truthy s = false <-> s = "".
Proof. by destruct s. Qed.

(** The loop over the tasks is the loop over the kept entries. *)
Lemma fold_format_task (tasks : list (gmap string string)) (grouped : list (string * list string)) :
  fold_left format_task tasks grouped
  = fold_left (fun g e => setdefault_append e.1 e.2 g) (checklist_entries tasks) grouped.
Proof.
  revert grouped. induction tasks as [|t tasks IH]; intros grouped; [done|].
  simpl. rewrite IH. unfold checklist_entries at 2. simpl.
  unfold format_task. fold (task_description t). fold (task_phase t).
  destruct (decide (task_description t = "")) as [E|Hne].
  - by rewrite E.
  - destruct (task_description t) eqn:Ed; [done|]. done.
Qed.

Lemma fold_entries_grouped (entries : list (string * string)) :
  fold_left (fun g e => setdefault_append e.1 e.2 g) entries [] = grouped_by_phase entries.
Proof.
  induction entries as [|e entries IH] using rev_ind; [done|].
  by rewrite fold_left_app, IH, grouped_by_phase_snoc.
Qed.

(** The formatter computes the grouping of the kept entries. *)
Lemma checklist_formatter_tool_grouped (tasks : list (gmap string string)) :
  checklist_formatter_tool tasks = grouped_by_phase (checklist_entries tasks).
Proof.
  unfold checklist_formatter_tool. by rewrite fold_format_task, fold_entries_grouped.
Qed.

End FormatterFacts.

Section FormatterSpec.

Lemma lines_of_fmap (p : string) (g : string -> list string) (ps : list string) :
  lines_of p ((fun q => (q, g q)) <$> ps)
  = if decide (p ∈ ps) then Some (g p) else None.
Proof.
  induction ps as [|q ps IH]; [done|].
  rewrite fmap_cons. cbn [lines_of].
  destruct (String.eqb_spec q p) as [->|Hne].
  - by rewrite (decide_True (P := p ∈ p :: ps)) by left.
  - rewrite IH. destruct (decide (p ∈ ps)) as [Hin|Hnin].
    + by rewrite (decide_True (P := p ∈ q :: ps)) by (by right).
    + rewrite (decide_False (P := p ∈ q :: ps)); [done|].
      rewrite elem_of_cons. intros [E|Hin]; [by symmetry in E|done].
Qed.

Lemma checklist_entries_app (l1 l2 : list (gmap string string)) :
  checklist_entries (l1 ++ l2) = (checklist_entries l1 ++ checklist_entries l2)%list.
Proof. apply omap_app. Qed.

Lemma checklist_entries_dropped (t : gmap string string) (l : list (gmap string string)) :
  task_description t = "" -> checklist_entries (t :: l) = checklist_entries l.
Proof. intros E. unfold checklist_entries. simpl. by rewrite decide_True by done. Qed.

(** A missing or blank description strips to the empty string. *)
Lemma blank_description (t : gmap string string) :
  t !! "description" = None
  \/ (exists s, t !! "description" = Some s /\ PyStr.all_space s) ->
  task_description t = "".
Proof.
  unfold task_description. intros [->|(s & -> & Hs)]; [done|].
  by apply StripFacts.strip_empty.
Qed.

(** Where an entry comes from. *)
Lemma elem_of_checklist_entries (e : string * string) (tasks : list (gmap string string)) :
  e ∈ checklist_entries tasks <->
  exists t, t ∈ tasks /\ task_description t <> ""
            /\ e = (task_phase t, "- [ ] " +:+ task_description t).
Proof.
  unfold checklist_entries. rewrite list_elem_of_omap. split.
  - intros (t & Ht & E). exists t. case_decide; [done|]. by inversion E.
  - intros (t & Ht & Hne & ->). exists t. split; [done|].
    by rewrite decide_False by done.
Qed.

Lemma elem_of_phase_lines (line p : string) (entries : list (string * string)) :
  line ∈ phase_lines p entries <-> (p, line) ∈ entries.
Proof.
  unfold phase_lines. rewrite list_elem_of_fmap. split.
  - intros ([q l] & -> & [E Hin]%list_elem_of_filter). simpl in *. by subst.
  - intros Hin. exists (p, line). split; [done|]. by apply list_elem_of_filter.
Qed.

End FormatterSpec.

(** C3. The formatter groups the kept tasks by phase: the keys of the result
    are the phases of the kept tasks (with "general" for a missing phase) in
    first-seen order, and each key holds the lines "- [ ] " + stripped
    description of its tasks, in input order; a task whose description is
    missing, or blank once stripped, changes nothing; and the three tasks of
    the specification's example give its two groups. *)
Theorem checklist_formatter_tool_spec :
  (forall tasks : list (gmap string string),
     let entries := checklist_entries tasks in
     let grouped := checklist_formatter_tool tasks in
     grouped.*1 = first_seen (entries.*1)
     /\ forall p, lines_of p grouped
                  = if decide (p ∈ entries.*1) then Some (phase_lines p entries)
                    else None)
  /\ (forall (before after : list (gmap string string)) (t : gmap string string),
        t !! "description" = None
        \/ (exists s, t !! "description" = Some s /\ PyStr.all_space s) ->
        checklist_formatter_tool (before ++ t :: after)
        = checklist_formatter_tool (before ++ after))
  /\ checklist_formatter_tool
       [ dict [("phase", "concept"); ("description", "A")];
         dict [("phase", "concept"); ("description", "B")];
         dict [("phase", "verification"); ("description", "C")] ]
     = [ ("concept", ["- [ ] A"; "- [ ] B"]); ("verification", ["- [ ] C"]) ].
Proof.
  split; [|split; [|reflexivity]].
  - intros tasks entries grouped. subst grouped.
    rewrite checklist_formatter_tool_grouped. fold entries. split.
    + unfold grouped_by_phase. rewrite <- list_fmap_compose.
      apply list_fmap_id.
    + intros p. unfold grouped_by_phase.
      rewrite (lines_of_fmap p (fun q => phase_lines q entries)).
      destruct (decide (p ∈ entries.*1)) as [Hin|Hnin].
      * by rewrite decide_True by (by apply first_seen_elem).
      * by rewrite decide_False by (by rewrite first_seen_elem).
  - intros before after t Hblank.
    rewrite !checklist_formatter_tool_grouped, !checklist_entries_app.
    by rewrite checklist_entries_dropped by (by apply blank_description).
Qed.

Lemma checklist_formatter_tool_spec_witness :
  checklist_formatter_tool
    ([dict [("phase", "design"); ("description", "Allocate requirements")]]
       ++ dict [("phase", "design"); ("description", "   ")]
       :: [dict [("description", "Review")]])
  = checklist_formatter_tool
      ([dict [("phase", "design"); ("description", "Allocate requirements")]]
         ++ [dict [("description", "Review")]]).
Proof.
  apply (proj1 (proj2 checklist_formatter_tool_spec)).
  right. exists "   ". split; [reflexivity|].
  intros c Hc. simpl in Hc. by repeat destruct Hc as [<-|Hc].
Defined.

(** C10. In the result of the formatter every key holds at least one line;
    every line is "- [ ] " followed by a description that is not empty and
    has nothing left to strip, and comes from a task of that phase; and a key
    is there only if some task with that phase (or, for "general", with no
    phase) has a description that is not empty once stripped. *)
Theorem checklist_formatter_tool_invariant
        (tasks : list (gmap string string)) (p : string) (lines : list string) :
  (p, lines) ∈ checklist_formatter_tool tasks ->
  lines <> []
  /\ (forall line, line ∈ lines ->
        exists d, line = "- [ ] " +:+ d /\ d <> "" /\ PyStr.strip d = d)
  /\ (exists t, t ∈ tasks
                /\ (t !! "phase" = Some p \/ (t !! "phase" = None /\ p = "general"))
                /\ PyStr.strip (default "" (t !! "description")) <> "").
Proof.
  rewrite checklist_formatter_tool_grouped. unfold grouped_by_phase.
  intros (q & [= -> ->] & Hq)%list_elem_of_fmap.
  apply (proj1 (first_seen_elem _ _)) in Hq.
  apply list_elem_of_fmap in Hq as ([q' l] & -> & He). simpl.
  assert (l ∈ phase_lines q' (checklist_entries tasks)) as Hl
    by (by apply elem_of_phase_lines).
  split; [|split].
  - intros E. rewrite E in Hl. by apply not_elem_of_nil in Hl.
  - intros line (t & _ & Hne & [= _ ->])%elem_of_phase_lines%elem_of_checklist_entries.
    exists (task_description t). split; [done|]. split; [done|].
    apply StripFacts.strip_idemp.
  - apply elem_of_checklist_entries in He as (t & Ht & Hne & [= -> _]).
    exists t. split; [done|]. split; [|done].
    unfold task_phase. destruct (t !! "phase"); [by left|by right].
Qed.

Lemma checklist_formatter_tool_invariant_witness :
  ["- [ ] Review"] <> []
  /\ (forall line, line ∈ ["- [ ] Review"] ->
        exists d, line = "- [ ] " +:+ d /\ d <> "" /\ PyStr.strip d = d)
  /\ (exists t, t ∈ [dict [("description", " Review ")]; dict [("phase", "design")]]
                /\ (t !! "phase" = Some "general"
                    \/ (t !! "phase" = None /\ "general" = "general"))
                /\ PyStr.strip (default "" (t !! "description")) <> "").
Proof.
  apply (checklist_formatter_tool_invariant
           [dict [("description", " Review ")]; dict [("phase", "design")]]
           "general" ["- [ ] Review"]).
  vm_compute. left.
Defined.

(** ** Coverage of the expected keywords *)

Section CoverageFacts.
Import PyStr PyStrFacts.

Lemma count_covered_from (text : string) (expected : list string) (covered : Z) :
  fold_left (fun covered kw => if keyword_match text kw then covered + 1 else covered)
            expected covered
  = covered + len (filter (fun kw => keyword_match text kw = true) expected).
Proof.
  unfold len. revert covered.
  induction expected as [|kw expected IH]; intros covered; simpl; [lia|].
  rewrite IH, filter_cons.
  destruct (keyword_match text kw); case_decide; try done; simpl length; lia.
Qed.

Lemma count_covered_bounds (text : string) (expected : list string) :
  0 <= count_covered text expected <= len expected.
Proof.
  unfold count_covered. rewrite count_covered_from. unfold len.
  pose proof (length_filter (fun kw => keyword_match text kw = true) expected).
  lia.
Qed.

Lemma truediv_positive (a b : Z) : 0 < b -> truediv a b = Ok (a # Z.to_pos b).
Proof. intros Hb. destruct b; try lia. reflexivity. Qed.

End CoverageFacts.

(** C4, as the code has it. The expected keyword is lower-cased first, and
    the rules apply to its lower-case form [key]: for "hara" the text must
    hold "hara" or "hazard analysis"; for "verification_plan" it must hold
    both "verification" and "plan", or "test plan"; for any other [key] it
    must hold [key] with each underscore replaced by a space. A text that
    holds "hazard analysis" covers "hara". The keywords counted as covered
    are those that pass this test. *)
Theorem keyword_match_spec (text kw : string) :
  let key := PyStr.lower kw in
  (key = "hara" ->
     (keyword_match text kw = true <->
      PyStr.substring_of "hara" text \/ PyStr.substring_of "hazard analysis" text))
  /\ (key = "verification_plan" ->
        (keyword_match text kw = true <->
         (PyStr.substring_of "verification" text /\ PyStr.substring_of "plan" text)
         \/ PyStr.substring_of "test plan" text))
  /\ (key <> "hara" -> key <> "verification_plan" ->
        (keyword_match text kw = true <->
         PyStr.substring_of (PyStr.replace_char "_" " " key) text))
  /\ (PyStr.substring_of "hazard analysis" text -> keyword_match text "hara" = true)
  /\ (forall expected,
        count_covered text expected
        = len (filter (fun kw => keyword_match text kw = true) expected)).
Proof.
  intros key.
  assert (forall expected,
            count_covered text expected
            = len (filter (fun kw => keyword_match text kw = true) expected)) as Hcount.
  { intros expected. unfold count_covered. rewrite count_covered_from. lia. }
  unfold keyword_match at 1 2 3 4. fold key.
  split; [|split; [|split; [|split]]]; [| | | |exact Hcount].
  - intros ->. simpl.
    by rewrite orb_true_iff, !PyStrFacts.contains_spec.
  - intros ->. simpl.
    by rewrite orb_true_iff, andb_true_iff, !PyStrFacts.contains_spec.
  - intros H1 H2.
    rewrite (proj2 (String.eqb_neq _ _) H1), (proj2 (String.eqb_neq _ _) H2).
    apply PyStrFacts.contains_spec.
  - intros H. simpl. apply orb_true_iff. right. by apply PyStrFacts.contains_spec.
Qed.

Lemma keyword_match_spec_witness :
  keyword_match "plan the hazard analysis" "HARA" = true.
Proof.
  apply (proj1 (keyword_match_spec "plan the hazard analysis" "HARA")).
  - reflexivity.
  - right. apply PyStrFacts.contains_spec. reflexivity.
Defined.

(** C4 as stated fails on a keyword in upper case: "HARA" is neither "hara"
    nor "verification_plan", the text "perform a hara" does not hold "HARA",
    and yet the keyword is counted as covered. *)
Lemma keyword_match_upper_case_counterexample :
  "HARA" <> "hara"
  /\ "HARA" <> "verification_plan"
  /\ PyStr.lower "perform a hara" = "perform a hara"
  /\ ~ PyStr.substring_of (PyStr.replace_char "_" " " "HARA") "perform a hara"
  /\ keyword_match "perform a hara" "HARA" = true.
Proof.
  split; [done|]. split; [done|]. split; [reflexivity|]. split; [|reflexivity].
  apply PyStrFacts.contains_false. reflexivity.
Qed.

(** ** The pipeline *)

Section PipelineFacts.
Context (St : Type) (dash : string).

(** The loop keeps the text of the last event that passes its test. *)
Lemma capture_text_last (events : list Event) (txt : option string) :
  capture_text events txt
  = match last_final_with_parts events with
    | Some e => first_part_text e
    | None => txt
    end.
Proof.
  unfold capture_text, last_final_with_parts.
  induction events as [|e events IH] using rev_ind; [done|].
  rewrite fold_left_app, filter_app, filter_cons, filter_nil. simpl.
  destruct (final_with_parts e) eqn:E.
  - rewrite decide_True by done. by rewrite last_snoc.
  - rewrite decide_False by congruence. by rewrite app_nil_r, IH.
Qed.

Lemma final_with_parts_final (e : Event) :
  final_with_parts e = true -> is_final_response e = true.
Proof. unfold final_with_parts. by intros [? _]%andb_true_iff. Qed.

(** A run with both runners at hand: the estimate, the planner's run, the
    checker's run on a prompt that holds the planner's text, and the
    checker's text as the result. *)
Lemma run_pipeline_initialized (planner checker : Runner St)
      (system : System) (standard : string) (w : world St) :
  let description := sys_description system in
  let domain := sys_domain system in
  let risk_level := risk_estimator_tool description in
  let planner_message := planner_input description domain standard risk_level in
  let planner_run := planner USER_ID SESSION_ID_PLANNER planner_message (service w) in
  let planner_text := capture_text planner_run.1 (Some "") in
  let checker_message :=
    checker_input dash description domain standard risk_level planner_text in
  let checker_run := checker USER_ID SESSION_ID_CHECKER checker_message planner_run.2 in
  run_pipeline_get_text St dash (Some planner) (Some checker) system standard w
  = (Ok (capture_text checker_run.1 (Some "")),
     {| service := checker_run.2;
        trace := (trace w
                  ++ [ Estimated risk_level;
                       RunAsync USER_ID SESSION_ID_PLANNER planner_message;
                       RunAsync USER_ID SESSION_ID_CHECKER checker_message ])%list |}).
Proof.
  destruct w as [s tr].
  cbv beta iota zeta
      delta [run_pipeline_get_text bind estimate log ret run_async service trace].
  destruct (planner _ _ _ s) as [events1 s1]. cbn [fst snd].
  destruct (checker _ _ _ s1) as [events2 s2]. cbn [fst snd].
  by rewrite <- !app_assoc.
Qed.

Lemma run_pipeline_uninitialized (planner checker : option (Runner St))
      (system : System) (standard : string) (w : world St) :
  planner = None \/ checker = None ->
  run_pipeline_get_text St dash planner checker system standard w
  = (Raise (RuntimeError "Agents (Planner/Checker) are not initialized."), w).
Proof.
  unfold run_pipeline_get_text, raise.
  intros [->| ->]; [done|]. by destruct planner.
Qed.

(** The row of one system: the pipeline either fails, for want of a runner
    or of a text, or gives a row with the guarded ratio. *)
Lemma evaluate_one_cases (planner checker : option (Runner St))
      (s : System) (standard : string) (w : world St) :
  (exists e, (evaluate_one St dash planner checker s standard w).1 = Raise e
             /\ e <> ZeroDivisionError)
  \/ (exists row, (evaluate_one St dash planner checker s standard w).1 = Ok row
                  /\ row_coverage_ratio row
                     = (row_covered_topics row
                        # Z.to_pos (Z.max 1 (row_expected_topics row)))).
Proof.
  unfold evaluate_one, bind.
  destruct planner as [planner|], checker as [checker|];
    try (left; eexists; rewrite run_pipeline_uninitialized by tauto; by split).
  rewrite run_pipeline_initialized. cbv zeta.
  match goal with |- context [capture_text ?evs ?t] => destruct (capture_text evs t) end.
  - right. unfold coverage_ratio.
    rewrite truediv_positive by lia. eexists. split; [reflexivity|]. reflexivity.
  - left. eexists. split; [reflexivity|done].
Qed.

Lemma evaluate_systems_rows_cases (planner checker : option (Runner St))
      (systems : list System) (standard : string) (rows0 : list Row) (w : world St) :
  Forall (fun row =>
            row_coverage_ratio row
            = (row_covered_topics row # Z.to_pos (Z.max 1 (row_expected_topics row))))
         rows0 ->
  (exists e, (evaluate_systems_rows St dash planner checker systems standard rows0 w).1
             = Raise e /\ e <> ZeroDivisionError)
  \/ (exists rows,
        (evaluate_systems_rows St dash planner checker systems standard rows0 w).1
        = Ok rows
        /\ length rows = (length rows0 + length systems)%nat
        /\ Forall (fun row =>
                     row_coverage_ratio row
                     = (row_covered_topics row
                        # Z.to_pos (Z.max 1 (row_expected_topics row))))
                  rows).
Proof.
  revert rows0 w. induction systems as [|s systems IH]; intros rows0 w Hrows0.
  - right. exists rows0. simpl. split; [done|]. split; [lia|done].
  - cbn [evaluate_systems_rows]. unfold bind.
    destruct (evaluate_one_cases planner checker s standard w)
      as [(e & He & Hne)|(row & Hrow & Hratio)].
    + left. exists e. destruct (evaluate_one _ _ _ _ _ _ _) as [r w']. simpl in He.
      subst r. by split.
    + destruct (evaluate_one _ _ _ _ _ _ _) as [r w']. simpl in Hrow. subst r.
      cbn beta iota.
      destruct (IH (rows0 ++ [row])%list w') as [Hraise|(rows & Hok & Hlen & Hall)].
      * apply Forall_app. split; [done|]. by apply Forall_singleton.
      * by left.
      * right. exists rows. split; [done|]. split; [|done].
        rewrite Hlen, length_app. simpl. lia.
Qed.

End PipelineFacts.

Section CaptureFacts.

Lemma last_final_none (events : list Event) :
  last_final events = None -> last_final_with_parts events = None.
Proof.
  unfold last_final, last_final_with_parts.
  induction events as [|e events IH] using rev_ind; [done|].
  rewrite !filter_app, !filter_cons, !filter_nil.
  destruct (is_final_response e) eqn:E.
  - rewrite (decide_True (P := true = true)) by done. by rewrite last_snoc.
  - rewrite (decide_False (P := false = true)) by done. rewrite app_nil_r.
    rewrite (decide_False (P := final_with_parts e = true)).
    + by rewrite app_nil_r.
    + intros H. apply final_with_parts_final in H. congruence.
Qed.

Lemma last_final_some (events : list Event) (e : Event) :
  last_final events = Some e -> final_with_parts e = true ->
  last_final_with_parts events = Some e.
Proof.
  unfold last_final, last_final_with_parts.
  induction events as [|x events IH] using rev_ind; [done|].
  rewrite !filter_app, !filter_cons, !filter_nil.
  destruct (is_final_response x) eqn:E.
  - rewrite (decide_True (P := true = true)) by done. rewrite last_snoc.
    intros [= ->] He. rewrite (decide_True (P := final_with_parts e = true)) by done.
    by rewrite last_snoc.
  - rewrite (decide_False (P := false = true)) by done. rewrite app_nil_r.
    rewrite (decide_False (P := final_with_parts x = true)).
    + by rewrite app_nil_r.
    + intros H. apply final_with_parts_final in H. congruence.
Qed.

End CaptureFacts.

(** C5. [run_pipeline_get_text] raises the "not initialized" error exactly
    when the planner's or the checker's runner is [None]; and when it does,
    no step has been taken: the trace has no estimate and no run, and the
    service is as it was. *)
Theorem run_pipeline_requires_runners
        (St : Type) (dash : string) (planner checker : option (Runner St))
        (system : System) (standard : string) (w : world St) :
  let run := run_pipeline_get_text St dash planner checker system standard w in
  (run.1 = Raise (RuntimeError "Agents (Planner/Checker) are not initialized.")
   <-> planner = None \/ checker = None)
  /\ (planner = None \/ checker = None -> run.2 = w).
Proof.
  intros run. subst run.
  destruct planner as [planner|], checker as [checker|];
    try (rewrite run_pipeline_uninitialized by tauto; simpl;
         split; [split; [tauto|done]|done]).
  rewrite run_pipeline_initialized. cbv zeta. cbn [fst snd].
  split; [split; [done|by intros [|]]|by intros [|]].
Qed.

Lemma run_pipeline_requires_runners_witness :
  (run_pipeline_get_text nat "-" None (Some (reply_runner "ok")) brake_ecu "iso26262"
     {| service := 0%nat; trace := [] |}).2
  = {| service := 0%nat; trace := [] |}.
Proof.
  apply (proj2 (run_pipeline_requires_runners
                  nat "-" None (Some (reply_runner "ok")) brake_ecu "iso26262"
                  {| service := 0%nat; trace := [] |})).
  by left.
Defined.

(** C6. The ratio is [covered / max(1, len(expected))]: the division never
    raises, its value is the number of covered keywords over the guarded
    count, and it is 0 for an empty list of expected keywords. The loop of
    the evaluator never raises [ZeroDivisionError], and every row it appends
    holds this ratio of its two counts. *)
Theorem coverage_ratio_guarded :
  (forall (text : string) (expected : list string),
     coverage_ratio text expected
     = Ok (count_covered text expected # Z.to_pos (Z.max 1 (len expected))))
  /\ (forall text : string, coverage_ratio text [] = Ok (0 # 1))
  /\ (forall St dash planner checker systems standard w,
        (evaluate_systems_rows St dash planner checker systems standard [] w).1
        <> Raise ZeroDivisionError)
  /\ (forall St dash planner checker systems standard w rows,
        (evaluate_systems_rows St dash planner checker systems standard [] w).1
        = Ok rows ->
        length rows = length systems
        /\ Forall (fun row =>
                     row_coverage_ratio row
                     = (row_covered_topics row
                        # Z.to_pos (Z.max 1 (row_expected_topics row))))
                  rows).
Proof.
  split; [|split; [reflexivity|split]].
  - intros text expected. unfold coverage_ratio. apply truediv_positive. lia.
  - intros St dash planner checker systems standard w.
    destruct (evaluate_systems_rows_cases St dash planner checker systems standard [] w)
      as [(e & He & Hne)|(rows & Hok & _)]; [apply Forall_nil_2| |].
    + rewrite He. intros [= E]. by apply Hne.
    + by rewrite Hok.
  - intros St dash planner checker systems standard w rows Hok.
    destruct (evaluate_systems_rows_cases St dash planner checker systems standard [] w)
      as [(e & He & _)|(rows' & Hok' & Hlen & Hall)]; [apply Forall_nil_2| |].
    + congruence.
    + rewrite Hok in Hok'. injection Hok' as <-. done.
Qed.

Lemma coverage_ratio_guarded_witness :
  length [ {| row_id := "sys-1"; row_name := "Brake ECU"; row_domain := "automotive";
              row_risk := "high"; row_expected_topics := 0; row_covered_topics := 0;
              row_coverage_ratio := 0 # 1 |} ]
  = length [brake_ecu_no_topics]
  /\ Forall (fun row =>
               row_coverage_ratio row
               = (row_covered_topics row # Z.to_pos (Z.max 1 (row_expected_topics row))))
            [ {| row_id := "sys-1"; row_name := "Brake ECU"; row_domain := "automotive";
                 row_risk := "high"; row_expected_topics := 0; row_covered_topics := 0;
                 row_coverage_ratio := 0 # 1 |} ].
Proof.
  apply (proj2 (proj2 (proj2 coverage_ratio_guarded))
               nat "-" (Some (reply_runner "plan")) (Some (reply_runner "HARA done"))
               [brake_ecu_no_topics] "iso26262" {| service := 0%nat; trace := [] |}).
  reflexivity.
Defined.

(** C7, as the code has it. Each stage captures the text of the first part
    of the last event that is a final response and has content with at least
    one part; final responses without content or parts are passed over. The
    captured text is the empty string when there is no such event, so also
    when the stream has no final response at all, and it is the text of the
    last final response whenever that one has a part. With both runners at
    hand the pipeline returns what it captured from the checker's run, whose
    prompt holds what it captured from the planner's. *)
Theorem capture_text_spec :
  (forall events : list Event,
     capture_text events (Some "")
     = match last_final_with_parts events with
       | Some e => first_part_text e
       | None => Some ""
       end)
  /\ (forall events : list Event,
        last_final events = None -> capture_text events (Some "") = Some "")
  /\ (forall (events : list Event) (e : Event),
        last_final events = Some e -> final_with_parts e = true ->
        capture_text events (Some "") = first_part_text e)
  /\ (forall (St : Type) (dash : string) (planner checker : Runner St)
             (system : System) (standard : string) (w : world St),
        let description := sys_description system in
        let domain := sys_domain system in
        let risk_level := risk_estimator_tool description in
        let planner_run :=
          planner USER_ID SESSION_ID_PLANNER
                  (planner_input description domain standard risk_level) (service w) in
        let planner_text := capture_text planner_run.1 (Some "") in
        let checker_run :=
          checker USER_ID SESSION_ID_CHECKER
                  (checker_input dash description domain standard risk_level planner_text)
                  planner_run.2 in
        (run_pipeline_get_text St dash (Some planner) (Some checker) system standard w).1
        = Ok (capture_text checker_run.1 (Some ""))).
Proof.
  split; [|split; [|split]].
  - intros events. apply capture_text_last.
  - intros events H. by rewrite capture_text_last, (last_final_none events H).
  - intros events e H He. by rewrite capture_text_last, (last_final_some events e H He).
  - intros. by rewrite run_pipeline_initialized.
Qed.

Lemma capture_text_spec_witness :
  capture_text [partial_event "draft"; final_event "plan"; partial_event "late"] (Some "")
  = first_part_text (final_event "plan").
Proof.
  apply (proj1 (proj2 (proj2 capture_text_spec))); reflexivity.
Defined.

(** C7 as stated fails when the last final response has no content: the
    text kept is that of an earlier event, not a text carried by the last
    final response; and the same last final response, alone in its stream,
    leaves the empty string. *)
Lemma capture_text_last_final_counterexample :
  last_final [final_event "A"; final_event_no_content] = Some final_event_no_content
  /\ first_part_text final_event_no_content = None
  /\ capture_text [final_event "A"; final_event_no_content] (Some "") = Some "A"
  /\ last_final [final_event_no_content] = Some final_event_no_content
  /\ capture_text [final_event_no_content] (Some "") = Some "".
Proof. repeat split. Qed.

(** ** tests/test_tools.py, run on the model *)

Section TestTools.

Example test_mini_standard_keys :
  is_Some (mini_standard !! "iso26262") /\ is_Some (mini_standard !! "generic_safety").
Proof. split; by eexists. Qed.

Example test_standard_lookup_tool_iso26262_concept :
  exists items,
    standard_lookup_tool "iso26262" "concept" = Ok items
    /\ Some "HARA" ∈ (fun item : gmap string string => item !! "topic") <$> items
    /\ Some "safety_goals" ∈ (fun item : gmap string string => item !! "topic") <$> items.
Proof.
  eexists. split; [reflexivity|]. split.
  - by left.
  - right. by left.
Qed.

Example test_risk_estimator_tool_high_risk :
  risk_estimator_tool
    "An automotive brake control ECU that manages hydraulic braking for a high-voltage electric powertrain."
  = "high".
Proof. reflexivity. Qed.

Example test_risk_estimator_tool_low_risk :
  risk_estimator_tool "A mobile app for tracking daily steps and showing basic statistics."
  = "low".
Proof. reflexivity. Qed.

Example test_checklist_formatter_tool_groups_by_phase :
  let grouped :=
    checklist_formatter_tool
      [ dict [("phase", "concept");
              ("description", "Perform hazard analysis and risk assessment")];
        dict [("phase", "concept"); ("description", "Define safety goals")];
        dict [("phase", "verification"); ("description", "Create a verification plan")] ] in
  length <$> lines_of "concept" grouped = Some 2%nat
  /\ is_Some (lines_of "verification" grouped)
  /\ Forall (fun kv => Forall (fun line => PyStr.startswith "- [ ] " line = true) kv.2)
            grouped.
Proof.
  split; [reflexivity|]. split; [by eexists|].
  repeat (apply Forall_cons; split;
          [repeat (apply Forall_cons; split; [reflexivity|]); apply Forall_nil_2|]).
  apply Forall_nil_2.
Qed.

End TestTools.

(** * Further properties of the code *)

(** ** More facts on strings *)

Module PyStrMore.
Import PyStr PyStrFacts.

Lemma append_assoc (a b c : string) : (a +:+ b) +:+ c = a +:+ b +:+ c.
Proof.
  induction a as [|x a IH]; [reflexivity|].
  change (String x ((a +:+ b) +:+ c) = String x (a +:+ b +:+ c)). by f_equal.
Qed.

Lemma append_nil_r (a : string) : a +:+ "" = a.
Proof.
  induction a as [|x a IH]; [reflexivity|].
  change (String x (a +:+ "") = String x a). by f_equal.
Qed.

Lemma substring_of_refl (s : string) : substring_of s s.
Proof. exists "", "". change ("" +:+ s +:+ "") with (s +:+ ""). by rewrite append_nil_r. Qed.

Lemma substring_of_trans (k m t : string) :
  substring_of k m -> substring_of m t -> substring_of k t.
Proof.
  intros (a & b & ->) (a' & b' & ->).
  exists (a' +:+ a), (b +:+ b'). by rewrite !append_assoc.
Qed.

Lemma substring_of_embed (k d a b : string) :
  substring_of k d -> substring_of k (a +:+ d +:+ b).
Proof. intros H. apply (substring_of_trans k d); [done|]. by exists a, b. Qed.

Lemma lower_char_idemp (c : ascii) : lower_char (lower_char c) = lower_char c.
Proof. destruct c as [[] [] [] [] [] [] [] []]; reflexivity. Qed.

Lemma lower_idemp (s : string) : lower (lower s) = lower s.
Proof.
  induction s as [|c s IH]; simpl; [done|].
  by rewrite lower_char_idemp, IH.
Qed.

Lemma lower_length (s : string) : String.length (lower s) = String.length s.
Proof. induction s as [|c s IH]; simpl; [done|]. by rewrite IH. Qed.

End PyStrMore.

(** ** More on the risk estimator *)

Section RiskMore.
Import PyStr PyStrFacts PyStrMore.

Lemma risk_level_low_inv (d : string) :
  risk_estimator_tool d = "low" -> risk_score (lower d) < 1.
Proof.
  unfold risk_estimator_tool. cbv zeta.
  destruct (Z.leb_spec 3 (risk_score (lower d))); [done|].
  destruct (Z.leb_spec 1 (risk_score (lower d))); [done|]. done.
Qed.

Lemma risk_level_high_inv (d : string) :
  risk_estimator_tool d = "high" -> 3 <= risk_score (lower d).
Proof.
  unfold risk_estimator_tool. cbv zeta.
  destruct (Z.leb_spec 3 (risk_score (lower d))); [done|].
  by destruct (Z.leb_spec 1 (risk_score (lower d))).
Qed.

(** More keywords found, more added. *)
Lemma add_matches_mono (w : Z) (kws : list string) (t1 t2 : string) (s1 s2 : Z) :
  0 <= w -> s1 <= s2 ->
  (forall kw, kw ∈ kws -> contains kw t1 = true -> contains kw t2 = true) ->
  add_matches w kws t1 s1 <= add_matches w kws t2 s2.
Proof.
  unfold add_matches. intros Hw. revert s1 s2.
  induction kws as [|kw kws IH]; intros s1 s2 Hs H; simpl; [done|].
  apply IH.
  - pose proof (H kw (list_elem_of_here _ _)) as Hkw.
    destruct (contains kw t1); [rewrite Hkw by done|destruct (contains kw t2)]; lia.
  - intros k Hk. apply H. by right.
Qed.

Lemma risk_score_mono (t1 t2 : string) :
  (forall kw, substring_of kw t1 -> substring_of kw t2) ->
  risk_score t1 <= risk_score t2.
Proof.
  intros H. unfold risk_score.
  assert (forall kw, contains kw t1 = true -> contains kw t2 = true) as Hc.
  { intros kw. rewrite !contains_spec. apply H. }
  apply add_matches_mono; [lia| |auto].
  apply add_matches_mono; [lia|lia|auto].
Qed.

(** The keywords of [ks], all different, all of the list and all found,
    are among those the loop counts. *)
Lemma matches_length_ge (kws ks : list string) (text : string) :
  NoDup ks ->
  (forall k, k ∈ ks -> k ∈ kws /\ substring_of k text) ->
  (length ks <= length (filter (fun kw => contains kw text = true) kws))%nat.
Proof.
  intros Hnd H. apply submseteq_length, NoDup_submseteq; [done|].
  intros k Hk. by apply elem_of_matches, H.
Qed.

Lemma no_matches (kws : list string) (text : string) :
  filter (fun kw => contains kw text = true) kws = []
  <-> (forall kw, kw ∈ kws -> ~ substring_of kw text).
Proof.
  split.
  - intros E kw Hkw Hsub.
    assert (kw ∈ filter (fun kw => contains kw text = true) kws) as Hin
      by (by apply elem_of_matches).
    rewrite E in Hin. by apply not_elem_of_nil in Hin.
  - intros H. destruct (filter _ kws) as [|kw l] eqn:E; [done|].
    assert (kw ∈ filter (fun kw => contains kw text = true) kws) as Hin
      by (rewrite E; left).
    apply elem_of_matches in Hin as [Hkw Hsub]. by destruct (H kw).
Qed.

(** The same, for keywords that all occur in one word [m] of the text. *)
Lemma matches_of_container (kws ks : list string) (m text : string) :
  NoDup ks ->
  Forall (fun k => k ∈ kws /\ contains k m = true) ks ->
  substring_of m text ->
  (length ks <= length (filter (fun kw => contains kw text = true) kws))%nat.
Proof.
  intros Hnd Hall Hm. apply matches_length_ge; [done|].
  intros k Hk. destruct (proj1 (Forall_forall _ _) Hall k Hk) as [Hin Hc].
  split; [done|]. apply (substring_of_trans k m); [|done]. by apply contains_spec.
Qed.

End RiskMore.

Ltac solve_NoDup := refine (bool_decide_unpack _ _); by vm_compute.

Ltac solve_contained :=
  repeat (apply Forall_cons; split;
          [split; [refine (bool_decide_unpack _ _); by vm_compute|reflexivity]|]);
  apply Forall_nil_2.

(** X1. The estimate does not depend on the case of the letters: a
    description and its lower-case form get the same level, and so do any
    two descriptions with the same lower-case form. *)
Theorem risk_estimator_tool_case_insensitive :
  (forall d : string, risk_estimator_tool (PyStr.lower d) = risk_estimator_tool d)
  /\ (forall d1 d2 : string,
        PyStr.lower d1 = PyStr.lower d2 ->
        risk_estimator_tool d1 = risk_estimator_tool d2).
Proof.
  split.
  - intros d. unfold risk_estimator_tool. by rewrite PyStrMore.lower_idemp.
  - intros d1 d2 E. unfold risk_estimator_tool. by rewrite E.
Qed.

Lemma risk_estimator_tool_case_insensitive_witness :
  risk_estimator_tool "BRAKE system" = risk_estimator_tool "brake system".
Proof.
  apply (proj2 risk_estimator_tool_case_insensitive). reflexivity.
Defined.

(** X2. The level is "low" exactly when none of the keywords of the two
    lists occurs in the lower-cased description. *)
Theorem risk_estimator_tool_low_iff (d : string) :
  risk_estimator_tool d = "low"
  <-> (forall kw, kw ∈ (high_risk_keywords ++ medium_risk_keywords)%list ->
         ~ PyStr.substring_of kw (PyStr.lower d)).
Proof.
  split.
  - intros Hlow%risk_level_low_inv. rewrite risk_score_count in Hlow.
    unfold len in Hlow.
    assert (filter (fun kw => PyStr.contains kw (PyStr.lower d) = true)
                   high_risk_keywords = []) as E1
      by (apply nil_length_inv; lia).
    assert (filter (fun kw => PyStr.contains kw (PyStr.lower d) = true)
                   medium_risk_keywords = []) as E2
      by (apply nil_length_inv; lia).
    intros kw [Hkw|Hkw]%elem_of_app.
    + by apply (proj1 (no_matches _ _) E1).
    + by apply (proj1 (no_matches _ _) E2).
  - intros H. apply risk_level_of_score. rewrite risk_score_count.
    rewrite (proj2 (no_matches high_risk_keywords (PyStr.lower d))).
    + rewrite (proj2 (no_matches medium_risk_keywords (PyStr.lower d))).
      * unfold len. simpl. lia.
      * intros kw Hkw. apply H, elem_of_app. by right.
    + intros kw Hkw. apply H, elem_of_app. by left.
Qed.

Lemma risk_estimator_tool_low_iff_witness :
  risk_estimator_tool "A step counter app" = "low".
Proof.
  apply (proj2 (risk_estimator_tool_low_iff "A step counter app")).
  refine (proj1 (Forall_forall (fun kw => ~ PyStr.substring_of kw _) _) _).
  repeat (apply Forall_cons; split;
          [apply PyStrFacts.contains_false; reflexivity|]).
  apply Forall_nil_2.
Defined.

(** X3. Text added before and after a description never lowers its score,
    so a "high" description stays "high" and a longer text that is "low" has
    only "low" parts. *)
Theorem risk_estimator_tool_monotone (a d b : string) :
  risk_score (PyStr.lower d) <= risk_score (PyStr.lower (a +:+ d +:+ b))
  /\ (risk_estimator_tool d = "high" -> risk_estimator_tool (a +:+ d +:+ b) = "high")
  /\ (risk_estimator_tool (a +:+ d +:+ b) = "low" -> risk_estimator_tool d = "low").
Proof.
  assert (risk_score (PyStr.lower d) <= risk_score (PyStr.lower (a +:+ d +:+ b))) as Hle.
  { apply risk_score_mono. intros kw Hkw.
    rewrite !PyStrFacts.lower_app. by apply PyStrMore.substring_of_embed. }
  split; [done|]. split.
  - intros Hhigh%risk_level_high_inv. apply risk_level_of_score. lia.
  - intros Hlow%risk_level_low_inv. apply risk_level_of_score. lia.
Qed.

Lemma risk_estimator_tool_monotone_witness :
  risk_estimator_tool ("Unit: " +:+ "brake and steering" +:+ " (rear axle)") = "high".
Proof.
  apply (proj1 (proj2 (risk_estimator_tool_monotone
                         "Unit: " "brake and steering" " (rear axle)"))).
  reflexivity.
Defined.

(** X4. The score lies between 0 and 33, twice the twelve high-risk keywords
    plus the nine medium-risk ones, and a text that holds them all reaches
    33. *)
Theorem risk_score_bounds :
  (forall text : string, 0 <= risk_score text <= 33)
  /\ exists text : string, risk_score text = 33.
Proof.
  split.
  - intros text. rewrite risk_score_count. unfold len.
    pose proof (length_filter (fun kw => PyStr.contains kw text = true)
                              high_risk_keywords) as H1.
    pose proof (length_filter (fun kw => PyStr.contains kw text = true)
                              medium_risk_keywords) as H2.
    simpl length in H1, H2. lia.
  - exists "brake braking steering railway high-voltage high voltage battery bms powertrain airbag collision avoidance diagnostics emergency fail-safe failsafe stability control safety monitoring".
    reflexivity.
Qed.

(** X5. The keywords overlap: "powertrain" holds "train", and "safety
    monitoring" holds "monitoring" and "monitor". A description in which
    "powertrain" occurs, or "safety monitoring", is therefore "high" on that
    word alone, and one in which "monitoring" or "diagnostics" occurs scores
    at least 2. *)
Theorem overlapping_keywords_escalate (d : string) :
  (PyStr.substring_of "powertrain" (PyStr.lower d) -> risk_estimator_tool d = "high")
  /\ (PyStr.substring_of "safety monitoring" (PyStr.lower d) ->
      risk_estimator_tool d = "high")
  /\ (PyStr.substring_of "monitoring" (PyStr.lower d)
      \/ PyStr.substring_of "diagnostics" (PyStr.lower d) ->
      2 <= risk_score (PyStr.lower d)).
Proof.
  pose proof (risk_score_count (PyStr.lower d)) as Hscore. unfold len in Hscore.
  split; [|split].
  - intros H. apply risk_level_of_score.
    pose proof (matches_of_container high_risk_keywords ["train"; "powertrain"]
                                     "powertrain" (PyStr.lower d)) as Hlen.
    simpl length in Hlen. cut (2 <= length (filter (fun kw => PyStr.contains kw (PyStr.lower d) = true) high_risk_keywords))%nat; [lia|].
    apply Hlen; [solve_NoDup|solve_contained|done].
  - intros H. apply risk_level_of_score.
    pose proof (matches_of_container medium_risk_keywords
                                     ["monitor"; "monitoring"; "safety monitoring"]
                                     "safety monitoring" (PyStr.lower d)) as Hlen.
    simpl length in Hlen. cut (3 <= length (filter (fun kw => PyStr.contains kw (PyStr.lower d) = true) medium_risk_keywords))%nat; [lia|].
    apply Hlen; [solve_NoDup|solve_contained|done].
  - intros [H|H].
    + pose proof (matches_of_container medium_risk_keywords ["monitor"; "monitoring"]
                                       "monitoring" (PyStr.lower d)) as Hlen.
      simpl length in Hlen. cut (2 <= length (filter (fun kw => PyStr.contains kw (PyStr.lower d) = true) medium_risk_keywords))%nat; [lia|].
      apply Hlen; [solve_NoDup|solve_contained|done].
    + pose proof (matches_of_container medium_risk_keywords ["diagnostic"; "diagnostics"]
                                       "diagnostics" (PyStr.lower d)) as Hlen.
      simpl length in Hlen. cut (2 <= length (filter (fun kw => PyStr.contains kw (PyStr.lower d) = true) medium_risk_keywords))%nat; [lia|].
      apply Hlen; [solve_NoDup|solve_contained|done].
Qed.

Lemma overlapping_keywords_escalate_witness :
  risk_estimator_tool "Electric Powertrain" = "high".
Proof.
  apply (proj1 (overlapping_keywords_escalate "Electric Powertrain")).
  apply PyStrFacts.contains_spec. reflexivity.
Defined.

(** ** More on the lookup *)

Section LookupMore.

Lemma mini_standard_cases (standard : string) :
  (standard = "iso26262" /\ mini_standard !! standard = Some iso26262_profile)
  \/ (standard = "generic_safety"
      /\ mini_standard !! standard = Some generic_safety_profile)
  \/ (standard <> "iso26262" /\ standard <> "generic_safety"
      /\ mini_standard !! standard = None).
Proof.
  unfold mini_standard.
  destruct (decide ("iso26262" = standard)) as [<-|Hiso].
  { left. by rewrite lookup_insert_eq. }
  rewrite lookup_insert_ne by done.
  destruct (decide ("generic_safety" = standard)) as [<-|Hgen].
  { right. left. by rewrite lookup_insert_eq. }
  rewrite lookup_insert_ne by done. right. right. by rewrite lookup_empty.
Qed.

Lemma standard_lookup_tool_filter (standard phase : string) :
  standard_lookup_tool standard phase
  = Ok (filter (fun item => item !! "phase" = Some phase)
               (default [] (mini_standard !! standard))).
Proof. apply items_of_phase_filter, mini_standard_phases. Qed.

Lemma filter_phase_nil (phase : string) (items : list (gmap string string)) :
  filter (fun item => item !! "phase" = Some phase) items = []
  <-> Some phase ∉ (fun item : gmap string string => item !! "phase") <$> items.
Proof.
  induction items as [|item items IH]; [by split; [intros _ H%not_elem_of_nil|]|].
  rewrite filter_cons, fmap_cons, not_elem_of_cons, <- IH.
  case_decide as Hp; split.
  - done.
  - intros [Hne _]. by destruct Hne.
  - intros E. split; [congruence|done].
  - by intros [_ E].
Qed.

Lemma iso26262_phases :
  (fun item : gmap string string => item !! "phase") <$> iso26262_profile
  = [ Some "concept"; Some "concept"; Some "design"; Some "design";
      Some "implementation"; Some "verification"; Some "verification";
      Some "safety_case"; Some "safety_case" ].
Proof. reflexivity. Qed.

Lemma generic_safety_phases :
  (fun item : gmap string string => item !! "phase") <$> generic_safety_profile
  = [ Some "concept"; Some "design"; Some "verification"; Some "safety_case" ].
Proof. reflexivity. Qed.

End LookupMore.

Ltac solve_elem := refine (bool_decide_unpack _ _); by vm_compute.

(** X6. Every item a lookup returns is an entry of the standard's profile,
    has the requested phase, one of the five of the life cycle, has an id, a
    topic and a summary, and has a priority that is "low", "medium" or
    "high". *)
Theorem standard_lookup_tool_items
        (standard phase : string) (items : list (gmap string string)) :
  standard_lookup_tool standard phase = Ok items ->
  Forall (fun item =>
            item ∈ default [] (mini_standard !! standard)
            /\ item !! "phase" = Some phase
            /\ phase ∈ ["concept"; "design"; "implementation"; "verification";
                        "safety_case"]
            /\ is_Some (item !! "id")
            /\ is_Some (item !! "topic")
            /\ is_Some (item !! "summary")
            /\ exists priority, item !! "priority" = Some priority
                                /\ priority ∈ ["low"; "medium"; "high"])
         items.
Proof.
  rewrite standard_lookup_tool_filter. intros [= <-].
  assert (Forall (fun item : gmap string string =>
                    (exists p, item !! "phase" = Some p
                               /\ p ∈ ["concept"; "design"; "implementation";
                                       "verification"; "safety_case"])
                    /\ is_Some (item !! "id")
                    /\ is_Some (item !! "topic")
                    /\ is_Some (item !! "summary")
                    /\ exists priority, item !! "priority" = Some priority
                                        /\ priority ∈ ["low"; "medium"; "high"])
                 (default [] (mini_standard !! standard))) as Hshape.
  { destruct (mini_standard_cases standard)
      as [[_ ->]|[[_ ->]|(_ & _ & ->)]]; simpl.
    - repeat (apply Forall_cons; split;
              [split; [eexists; split; [reflexivity|refine (bool_decide_unpack _ _); by vm_compute]|];
               split; [by eexists|]; split; [by eexists|]; split; [by eexists|];
               eexists; split; [reflexivity|refine (bool_decide_unpack _ _); by vm_compute]|]).
      apply Forall_nil_2.
    - repeat (apply Forall_cons; split;
              [split; [eexists; split; [reflexivity|refine (bool_decide_unpack _ _); by vm_compute]|];
               split; [by eexists|]; split; [by eexists|]; split; [by eexists|];
               eexists; split; [reflexivity|refine (bool_decide_unpack _ _); by vm_compute]|]).
      apply Forall_nil_2.
    - apply Forall_nil_2. }
  apply Forall_forall. intros item [Hphase Hin]%list_elem_of_filter.
  destruct (proj1 (Forall_forall _ _) Hshape item Hin)
    as ((p & Hp & Hfive) & Hid & Htopic & Hsummary & Hpriority).
  rewrite Hphase in Hp. injection Hp as <-. done.
Qed.

Lemma standard_lookup_tool_items_witness :
  Forall (fun item : gmap string string =>
            item ∈ default [] (mini_standard !! "generic_safety")
            /\ item !! "phase" = Some "design"
            /\ "design" ∈ ["concept"; "design"; "implementation"; "verification";
                           "safety_case"]
            /\ is_Some (item !! "id")
            /\ is_Some (item !! "topic")
            /\ is_Some (item !! "summary")
            /\ exists priority, item !! "priority" = Some priority
                                /\ priority ∈ ["low"; "medium"; "high"])
         [ dict [ ("id", "generic-controls"); ("phase", "design");
                  ("topic", "controls"); ("priority", "medium");
                  ("summary", "Design technical and organizational controls to reduce or monitor risks.") ] ].
Proof.
  apply (standard_lookup_tool_items "generic_safety" "design"). reflexivity.
Defined.

(** X7. A lookup is empty unless the standard is "iso26262" and the phase
    one of the five, or the standard is "generic_safety" and the phase one
    of concept, design, verification and safety_case: the generic profile
    has nothing for the implementation phase, and names are matched as they
    are written. *)
Theorem standard_lookup_tool_empty_iff (standard phase : string) :
  standard_lookup_tool standard phase = Ok []
  <-> ~ ((standard = "iso26262"
          /\ phase ∈ ["concept"; "design"; "implementation"; "verification";
                      "safety_case"])
         \/ (standard = "generic_safety"
             /\ phase ∈ ["concept"; "design"; "verification"; "safety_case"])).
Proof.
  rewrite standard_lookup_tool_filter.
  assert (forall l, Ok (filter (fun item : gmap string string =>
                                  item !! "phase" = Some phase) l)
                    = Ok ([] : list (gmap string string))
                    <-> Some phase ∉ (fun item : gmap string string =>
                                        item !! "phase") <$> l) as Hnil.
  { intros l. rewrite <- filter_phase_nil. split; [by intros [= ->]|by intros ->]. }
  rewrite Hnil.
  destruct (mini_standard_cases standard)
    as [[-> ->]|[[-> ->]|(Hiso & Hgen & ->)]].
  - change (default [] (Some iso26262_profile)) with iso26262_profile.
    rewrite iso26262_phases. split.
    + intros H [[_ Hin]|[[=] _]]. apply H.
      rewrite !elem_of_cons, elem_of_nil in Hin.
      destruct Hin as [->|[->|[->|[->|[->|[]]]]]]; solve_elem.
    + intros H Hin. apply H. left. split; [done|].
      rewrite !elem_of_cons, elem_of_nil in Hin.
      destruct Hin as [[= ->]|[[= ->]|[[= ->]|[[= ->]|[[= ->]|[[= ->]|[[= ->]|[[= ->]|[[= ->]|[]]]]]]]]]];
        solve_elem.
  - change (default [] (Some generic_safety_profile)) with generic_safety_profile.
    rewrite generic_safety_phases. split.
    + intros H [[[=] _]|[_ Hin]]. apply H.
      rewrite !elem_of_cons, elem_of_nil in Hin.
      destruct Hin as [->|[->|[->|[->|[]]]]]; solve_elem.
    + intros H Hin. apply H. right. split; [done|].
      rewrite !elem_of_cons, elem_of_nil in Hin.
      destruct Hin as [[= ->]|[[= ->]|[[= ->]|[[= ->]|[]]]]]; solve_elem.
  - split; [|intros _; apply not_elem_of_nil].
    intros _ [[E _]|[E _]]; congruence.
Qed.

Lemma standard_lookup_tool_empty_iff_witness :
  standard_lookup_tool "generic_safety" "implementation" = Ok [].
Proof.
  apply (proj2 (standard_lookup_tool_empty_iff "generic_safety" "implementation")).
  intros [[[=] _]|[_ Hin]]. revert Hin.
  refine (bool_decide_unpack _ _). by vm_compute.
Defined.

(** X8. For every standard, the lookups of the five phases, taken in the
    order of the life cycle, put end to end give the whole profile: no entry
    is out of reach of a lookup, and none comes twice. *)
Theorem standard_lookup_tool_covers_profile (standard : string) :
  exists concept design implementation verification safety_case,
    standard_lookup_tool standard "concept" = Ok concept
    /\ standard_lookup_tool standard "design" = Ok design
    /\ standard_lookup_tool standard "implementation" = Ok implementation
    /\ standard_lookup_tool standard "verification" = Ok verification
    /\ standard_lookup_tool standard "safety_case" = Ok safety_case
    /\ (concept ++ design ++ implementation ++ verification ++ safety_case)%list
       = default [] (mini_standard !! standard).
Proof.
  do 5 eexists. rewrite !standard_lookup_tool_filter.
  repeat (split; [reflexivity|]).
  destruct (mini_standard_cases standard)
    as [[_ ->]|[[_ ->]|(_ & _ & ->)]]; reflexivity.
Qed.

(** ** More on the checklist formatter *)

Section FormatterMore.
Import PyStr.

Lemma lstrip_split (s : string) : exists a, s = a +:+ lstrip s /\ all_space a.
Proof.
  induction s as [|c s (a & E & Ha)];
    [exists ""; split; [done|apply StripFacts.all_space_nil]|].
  cbn [lstrip]. destruct (is_space c) eqn:Ec.
  - exists (String c a). split.
    + change (String c a +:+ lstrip s) with (String c (a +:+ lstrip s)). by rewrite <- E.
    + by apply StripFacts.all_space_cons.
  - exists "". split; [done|apply StripFacts.all_space_nil].
Qed.

Lemma rstrip_split (s : string) : exists b, s = rstrip s +:+ b /\ all_space b.
Proof.
  induction s as [|c s (b & E & Hb)];
    [exists ""; split; [done|apply StripFacts.all_space_nil]|].
  cbn [rstrip]. destruct (rstrip s) as [|d r] eqn:Er.
  - destruct (is_space c) eqn:Ec.
    + exists (String c s). split; [done|].
      apply StripFacts.all_space_cons. split; [done|].
      by apply StripFacts.rstrip_empty.
    + exists b. change ("" +:+ b) with b in E.
      change (String c "" +:+ b) with (String c b). split; [by f_equal|done].
  - exists b. change (String c (String d r) +:+ b) with (String c (String d r +:+ b)).
    split; [by f_equal|done].
Qed.

(** What [strip] takes away is white space, at the two ends. *)
Lemma strip_split (s : string) :
  exists a b, s = a +:+ strip s +:+ b /\ all_space a /\ all_space b.
Proof.
  destruct (lstrip_split s) as (a & Ea & Ha).
  destruct (rstrip_split (lstrip s)) as (b & Eb & Hb).
  exists a, b. unfold strip. by rewrite <- Eb, <- Ea.
Qed.

(** The number of lines in all the groups. *)
Lemma setdefault_append_lines (phase line : string) (grouped : list (string * list string)) :
  sum_list (length <$> (setdefault_append phase line grouped).*2)
  = S (sum_list (length <$> grouped.*2)).
Proof.
  induction grouped as [|[k lines] grouped IH]; [done|].
  cbn [setdefault_append]. destruct (String.eqb k phase).
  - rewrite !fmap_cons. cbn [snd sum_list sum_list_with]. rewrite length_app. simpl. lia.
  - rewrite !fmap_cons. cbn [snd sum_list sum_list_with]. rewrite IH. lia.
Qed.

Lemma fold_format_task_lines (tasks : list (gmap string string))
      (grouped : list (string * list string)) :
  sum_list (length <$> (fold_left format_task tasks grouped).*2)
  = (sum_list (length <$> grouped.*2)
     + length (filter (fun t : gmap string string =>
                         strip (default "" (t !! "description")) <> "") tasks))%nat.
Proof.
  revert grouped. induction tasks as [|t tasks IH]; intros grouped.
  - rewrite filter_nil. simpl. lia.
  - cbn [fold_left]. rewrite IH, filter_cons. unfold format_task.
    destruct (strip (default "" (t !! "description"))) as [|c s] eqn:E;
      cbn [truthy negb].
    + rewrite decide_False by (by intros H; apply H). lia.
    + rewrite setdefault_append_lines. rewrite decide_True by done.
      cbn [length]. lia.
Qed.

Lemma lines_of_elem (p : string) (lines : list string)
      (grouped : list (string * list string)) :
  NoDup grouped.*1 ->
  lines_of p grouped = Some lines <-> (p, lines) ∈ grouped.
Proof.
  induction grouped as [|[k v] grouped IH]; intros Hnd.
  - simpl. split; [done|by intros H%not_elem_of_nil].
  - rewrite fmap_cons in Hnd. apply NoDup_cons in Hnd as [Hk Hnd].
    cbn [lines_of]. rewrite elem_of_cons.
    destruct (String.eqb_spec k p) as [->|Hne].
    + split; [intros [= ->]; by left|].
      intros [[= ->]|Hin]; [done|]. destruct Hk.
      apply list_elem_of_fmap. by exists (p, lines).
    + rewrite IH by done. split; [by right|].
      intros [[= E _]|Hin]; [by destruct Hne|done].
Qed.

Lemma grouped_by_phase_keys (entries : list (string * string)) :
  (grouped_by_phase entries).*1 = first_seen entries.*1.
Proof.
  unfold grouped_by_phase. rewrite <- list_fmap_compose. apply list_fmap_id.
Qed.

Lemma lines_of_grouped (p : string) (entries : list (string * string)) :
  default [] (lines_of p (grouped_by_phase entries)) = phase_lines p entries.
Proof.
  unfold grouped_by_phase.
  rewrite (lines_of_fmap p (fun q => phase_lines q entries)).
  destruct (decide (p ∈ first_seen entries.*1)) as [Hin|Hnin]; [done|].
  rewrite phase_lines_absent; [done|]. by rewrite <- first_seen_elem.
Qed.

End FormatterMore.

(** X9. The result is a proper dict: no phase is a key twice, so reading a
    phase gives the one list stored with it. *)
Theorem checklist_formatter_tool_keys_unique (tasks : list (gmap string string)) :
  NoDup (checklist_formatter_tool tasks).*1
  /\ forall p lines,
       lines_of p (checklist_formatter_tool tasks) = Some lines
       <-> (p, lines) ∈ checklist_formatter_tool tasks.
Proof.
  assert (NoDup (checklist_formatter_tool tasks).*1) as Hnd.
  { rewrite checklist_formatter_tool_grouped, grouped_by_phase_keys.
    apply first_seen_NoDup. }
  split; [done|]. intros p lines. by apply lines_of_elem.
Qed.

(** X10. The result has one line for each task whose description is not
    empty once stripped, and no other: the number of lines in all groups is
    the number of those tasks, so never more than the number of tasks. *)
Theorem checklist_formatter_tool_line_count (tasks : list (gmap string string)) :
  sum_list (length <$> (checklist_formatter_tool tasks).*2)
  = length (filter (fun t : gmap string string =>
                      PyStr.strip (default "" (t !! "description")) <> "") tasks)
  /\ (sum_list (length <$> (checklist_formatter_tool tasks).*2) <= length tasks)%nat.
Proof.
  assert (sum_list (length <$> (checklist_formatter_tool tasks).*2)
          = length (filter (fun t : gmap string string =>
                              PyStr.strip (default "" (t !! "description")) <> "")
                           tasks)) as E.
  { unfold checklist_formatter_tool. by rewrite fold_format_task_lines. }
  split; [done|]. rewrite E. apply length_filter.
Qed.

(** X11. Formatting two lists of tasks one after the other: the lines of a
    phase are its lines for the first list followed by its lines for the
    second (a phase that is not a key counting for no lines). *)
Theorem checklist_formatter_tool_app
        (tasks1 tasks2 : list (gmap string string)) (p : string) :
  default [] (lines_of p (checklist_formatter_tool (tasks1 ++ tasks2)))
  = (default [] (lines_of p (checklist_formatter_tool tasks1))
     ++ default [] (lines_of p (checklist_formatter_tool tasks2)))%list.
Proof.
  rewrite !checklist_formatter_tool_grouped, !lines_of_grouped.
  rewrite checklist_entries_app. unfold phase_lines.
  by rewrite filter_app, fmap_app.
Qed.

(** X12. A line keeps the text of its task: it is "- [ ] " followed by the
    description of a task of that phase from which only white space, at the
    two ends, has been taken away. *)
Theorem checklist_formatter_tool_keeps_text
        (tasks : list (gmap string string)) (p : string) (lines : list string)
        (line : string) :
  (p, lines) ∈ checklist_formatter_tool tasks -> line ∈ lines ->
  exists t a d b,
    t ∈ tasks
    /\ default "general" (t !! "phase") = p
    /\ t !! "description" = Some (a +:+ d +:+ b)
    /\ PyStr.all_space a /\ PyStr.all_space b
    /\ d <> ""
    /\ line = "- [ ] " +:+ d.
Proof.
  rewrite checklist_formatter_tool_grouped. unfold grouped_by_phase.
  intros (q & [= -> ->] & _)%list_elem_of_fmap.
  intros (t & Ht & Hne & [= Hp ->])%elem_of_phase_lines%elem_of_checklist_entries.
  unfold task_description in *.
  destruct (t !! "description") as [s|] eqn:Es; [|done].
  destruct (strip_split s) as (a & b & E & Ha & Hb).
  exists t, a, (PyStr.strip s), b. simpl in *. by rewrite <- E.
Qed.

Lemma checklist_formatter_tool_keeps_text_witness :
  exists t a d b,
    t ∈ [dict [("phase", "design"); ("description", "  Allocate  requirements ")]]
    /\ default "general" (t !! "phase") = "design"
    /\ t !! "description" = Some (a +:+ d +:+ b)
    /\ PyStr.all_space a /\ PyStr.all_space b
    /\ d <> ""
    /\ "- [ ] Allocate  requirements" = "- [ ] " +:+ d.
Proof.
  apply (checklist_formatter_tool_keeps_text
           [dict [("phase", "design"); ("description", "  Allocate  requirements ")]]
           "design" ["- [ ] Allocate  requirements"]).
  - vm_compute. left.
  - left.
Defined.

(** X13. No task with a description is lost: a task whose description is not
    empty once stripped has its line in the list of its phase, "general" when
    it has no phase. *)
Theorem checklist_formatter_tool_complete
        (tasks : list (gmap string string)) (t : gmap string string) :
  t ∈ tasks ->
  PyStr.strip (default "" (t !! "description")) <> "" ->
  exists lines,
    lines_of (default "general" (t !! "phase")) (checklist_formatter_tool tasks)
    = Some lines
    /\ "- [ ] " +:+ PyStr.strip (default "" (t !! "description")) ∈ lines.
Proof.
  intros Ht Hne.
  assert ((task_phase t, "- [ ] " +:+ task_description t) ∈ checklist_entries tasks)
    as Hin.
  { apply elem_of_checklist_entries. by exists t. }
  rewrite checklist_formatter_tool_grouped. unfold grouped_by_phase.
  rewrite (lines_of_fmap _ (fun q => phase_lines q (checklist_entries tasks))).
  fold (task_phase t). fold (task_description t).
  rewrite decide_True.
  - eexists. split; [reflexivity|]. by apply elem_of_phase_lines.
  - apply first_seen_elem, list_elem_of_fmap.
    by exists (task_phase t, "- [ ] " +:+ task_description t).
Qed.

Lemma checklist_formatter_tool_complete_witness :
  exists lines,
    lines_of (default "general" (dict [("description", " Review ")] !! "phase"))
             (checklist_formatter_tool
                [dict [("phase", "design"); ("description", "Allocate")];
                 dict [("description", " Review ")]])
    = Some lines
    /\ "- [ ] " +:+ PyStr.strip (default "" (dict [("description", " Review ")]
                                               !! "description")) ∈ lines.
Proof.
  apply checklist_formatter_tool_complete.
  - right. left.
  - by vm_compute.
Defined.

(** ** More on the coverage of the expected keywords *)

Section CoverageMore.
Import PyStr PyStrFacts PyStrMore.

Lemma count_covered_filter (text : string) (expected : list string) :
  count_covered text expected
  = len (filter (fun kw => keyword_match text kw = true) expected).
Proof. unfold count_covered. rewrite count_covered_from. lia. Qed.

Lemma filter_all (P : string -> Prop) `{!forall x, Decision (P x)} (l : list string) :
  length (filter P l) = length l <-> Forall P l.
Proof.
  induction l as [|x l IH]; [done|].
  rewrite filter_cons, Forall_cons. pose proof (length_filter P l).
  case_decide; simpl.
  - rewrite <- IH. split; [intros [= E]; by split|intros [_ E]; by rewrite E].
  - split; [lia|by intros [? _]].
Qed.

Lemma filter_none (P : string -> Prop) `{!forall x, Decision (P x)} (l : list string) :
  length (filter P l) = 0%nat <-> Forall (fun x => ~ P x) l.
Proof.
  induction l as [|x l IH]; [done|].
  rewrite filter_cons, Forall_cons.
  case_decide; simpl.
  - split; [done|by intros [? _]].
  - rewrite IH. split; [by split|by intros [_ ?]].
Qed.

Lemma keyword_match_key (text kw : string) :
  keyword_match text kw = keyword_match text (lower kw).
Proof. unfold keyword_match. by rewrite lower_idemp. Qed.

Lemma contains_mono (k t1 t2 : string) :
  (forall k, substring_of k t1 -> substring_of k t2) ->
  contains k t1 = true -> contains k t2 = true.
Proof. rewrite !contains_spec. auto. Qed.

End CoverageMore.

(** X14. The number of covered keywords lies between 0 and the number of
    expected ones, and the ratio between 0 and 1. *)
Theorem coverage_bounds (text : string) (expected : list string) :
  0 <= count_covered text expected <= len expected
  /\ exists ratio, coverage_ratio text expected = Ok ratio
                   /\ (0 <= ratio)%Q /\ (ratio <= 1)%Q.
Proof.
  pose proof (count_covered_bounds text expected) as Hb.
  split; [done|]. unfold coverage_ratio.
  rewrite truediv_positive by lia. eexists. split; [reflexivity|].
  unfold Qle. cbn [Qnum Qden]. rewrite Z2Pos.id by lia. lia.
Qed.

(** X15. The ratio is 0 exactly when no expected keyword is matched, and 1
    exactly when there is at least one expected keyword and all are
    matched. *)
Theorem coverage_ratio_extremes (text : string) (expected : list string) :
  exists ratio,
    coverage_ratio text expected = Ok ratio
    /\ ((ratio == 0)%Q <-> Forall (fun kw => keyword_match text kw <> true) expected)
    /\ ((ratio == 1)%Q <->
        expected <> [] /\ Forall (fun kw => keyword_match text kw = true) expected).
Proof.
  unfold coverage_ratio. rewrite truediv_positive by lia.
  eexists. split; [reflexivity|].
  unfold Qeq. cbn [Qnum Qden]. rewrite Z2Pos.id by lia.
  rewrite count_covered_filter. unfold len.
  pose proof (length_filter (fun kw => keyword_match text kw = true) expected) as Hle.
  split.
  - rewrite <- (filter_none (fun kw => keyword_match text kw = true)). lia.
  - rewrite <- (filter_all (fun kw => keyword_match text kw = true)).
    destruct expected as [|kw expected]; [simpl; split; [lia|by intros [? _]]|].
    split.
    + intros H. split; [done|]. simpl length in *. lia.
    + intros [_ H]. simpl length in *. lia.
Qed.

(** X16. The expected keywords are counted one by one, as a list: the count
    for two lists put end to end is the sum of the two counts, so a keyword
    that is listed twice is counted twice. *)
Theorem count_covered_app (text : string) (expected1 expected2 : list string) :
  count_covered text (expected1 ++ expected2)
  = count_covered text expected1 + count_covered text expected2.
Proof.
  rewrite !count_covered_filter, filter_app. unfold len. rewrite length_app. lia.
Qed.

(** X17. The test of a keyword does not depend on the case of its letters:
    a keyword and its lower-case form are matched by the same texts, and so
    are two keywords with the same lower-case form. *)
Theorem keyword_match_case_insensitive (text : string) :
  (forall kw, keyword_match text (PyStr.lower kw) = keyword_match text kw)
  /\ (forall kw1 kw2, PyStr.lower kw1 = PyStr.lower kw2 ->
        keyword_match text kw1 = keyword_match text kw2).
Proof.
  split.
  - intros kw. symmetry. apply keyword_match_key.
  - intros kw1 kw2 E. by rewrite (keyword_match_key text kw1), E, <- keyword_match_key.
Qed.

Lemma keyword_match_case_insensitive_witness :
  keyword_match "define the safety goals" "Safety_Goals"
  = keyword_match "define the safety goals" "SAFETY_GOALS".
Proof.
  apply (proj2 (keyword_match_case_insensitive "define the safety goals")).
  reflexivity.
Defined.

(** X18. The two special keywords only widen the general rule: for every
    keyword, "hara" and "verification_plan" included, a text that holds the
    lower-cased keyword with its underscores turned into spaces covers it.
    And a keyword covered by a text is covered by every text that holds that
    text. *)
Theorem keyword_match_sufficient (text kw : string) :
  (PyStr.substring_of (PyStr.replace_char "_" " " (PyStr.lower kw)) text ->
   keyword_match text kw = true)
  /\ (forall a b, keyword_match text kw = true ->
        keyword_match (a +:+ text +:+ b) kw = true).
Proof.
  split.
  - intros H. unfold keyword_match.
    destruct (String.eqb_spec (PyStr.lower kw) "hara") as [E|_].
    { rewrite E in H. apply orb_true_iff. left. by apply PyStrFacts.contains_spec. }
    destruct (String.eqb_spec (PyStr.lower kw) "verification_plan") as [E|_].
    { rewrite E in H. apply orb_true_iff. left. apply andb_true_iff.
      split; apply PyStrFacts.contains_spec;
        (eapply PyStrMore.substring_of_trans; [|exact H]);
        apply PyStrFacts.contains_spec; reflexivity. }
    by apply PyStrFacts.contains_spec.
  - intros a b. unfold keyword_match.
    assert (forall k, PyStr.contains k text = true ->
                      PyStr.contains k (a +:+ text +:+ b) = true) as Hm.
    { intros k. apply contains_mono. intros k'. apply PyStrMore.substring_of_embed. }
    destruct (String.eqb (PyStr.lower kw) "hara").
    { rewrite !orb_true_iff. intros [H|H]; [left|right]; auto. }
    destruct (String.eqb (PyStr.lower kw) "verification_plan").
    { rewrite !orb_true_iff, !andb_true_iff. intros [[H1 H2]|H]; [left|right]; auto. }
    apply Hm.
Qed.

Lemma keyword_match_sufficient_witness :
  keyword_match "write the verification plan" "Verification_Plan" = true.
Proof.
  apply (proj1 (keyword_match_sufficient
                  "write the verification plan" "Verification_Plan")).
  apply PyStrFacts.contains_spec. reflexivity.
Defined.

(** ** More on the pipeline *)

Section PipelineMore.
Import PyStr PyStrFacts PyStrMore.
Context (St : Type) (dash : string).

Lemma joined_app (l1 l2 : list string) :
  joined (l1 ++ l2) = joined l1 +:+ joined l2.
Proof.
  induction l1 as [|p l1 IH]; [done|].
  change (joined ((p :: l1) ++ l2)) with (p +:+ joined (l1 ++ l2)).
  change (joined (p :: l1)) with (p +:+ joined l1).
  by rewrite IH, append_assoc.
Qed.

(** A run of pieces is found in the joined text. *)
Lemma joined_infix (before pieces after : list string) :
  substring_of (joined pieces) (joined (before ++ pieces ++ after)).
Proof. exists (joined before), (joined after). by rewrite !joined_app. Qed.

Lemma joined_piece (before after : list string) (p : string) :
  substring_of p (joined (before ++ p :: after)).
Proof.
  exists (joined before), (joined after). rewrite joined_app.
  by change (joined (p :: after)) with (p +:+ joined after).
Qed.


(** The row of one system, when there is one. *)
Lemma evaluate_one_row (planner checker : option (Runner St))
      (s : System) (standard : string) (w : world St) (row : Row) :
  (evaluate_one St dash planner checker s standard w).1 = Ok row ->
  exists final_text,
    (run_pipeline_get_text St dash planner checker s standard w).1 = Ok (Some final_text)
    /\ row = {| row_id := sys_id s;
                row_name := sys_name s;
                row_domain := sys_domain s;
                row_risk := risk_estimator_tool (sys_description s);
                row_expected_topics := len (sys_expected_must_have s);
                row_covered_topics :=
                  count_covered (lower final_text) (sys_expected_must_have s);
                row_coverage_ratio :=
                  count_covered (lower final_text) (sys_expected_must_have s)
                  # Z.to_pos (Z.max 1 (len (sys_expected_must_have s))) |}.
Proof.
  unfold evaluate_one, bind.
  destruct (run_pipeline_get_text St dash planner checker s standard w) as [[[t|]|e] w'];
    try done.
  unfold coverage_ratio. rewrite truediv_positive by lia.
  intros [= <-]. by exists t.
Qed.

Lemma evaluate_systems_rows_ok (planner checker : option (Runner St))
      (systems : list System) (standard : string) (rows0 rows : list Row) (w : world St) :
  (evaluate_systems_rows St dash planner checker systems standard rows0 w).1 = Ok rows ->
  exists new,
    rows = (rows0 ++ new)%list
    /\ Forall2 (fun s row =>
                  exists w', (evaluate_one St dash planner checker s standard w').1 = Ok row)
               systems new.
Proof.
  revert rows0 w. induction systems as [|s systems IH]; intros rows0 w.
  - intros [= <-]. exists []. by rewrite app_nil_r.
  - cbn [evaluate_systems_rows]. unfold bind.
    destruct (evaluate_one St dash planner checker s standard w) as [[row|e] w1] eqn:E;
      [|done].
    intros (new & -> & Hall)%IH. exists (row :: new).
    rewrite <- app_assoc. split; [done|].
    apply Forall2_cons. split; [|done]. exists w. by rewrite E.
Qed.


End PipelineMore.

(** X19. With both runners at hand a run takes three steps and no other:
    the estimate, the run of the planner in the planner's session, then the
    run of the checker in the checker's session, both for the same user; the
    checker runs on the service as the planner's run left it. *)
Theorem run_pipeline_steps
        (St : Type) (dash : string) (planner checker : Runner St)
        (system : System) (standard : string) (w : world St) :
  let run := run_pipeline_get_text St dash (Some planner) (Some checker)
                                   system standard w in
  exists planner_message checker_message,
    trace run.2
    = (trace w
       ++ [ Estimated (risk_estimator_tool (sys_description system));
            RunAsync "demo_user" "planner_session" planner_message;
            RunAsync "demo_user" "checker_session" checker_message ])%list
    /\ service run.2
       = (checker "demo_user" "checker_session" checker_message
                  (planner "demo_user" "planner_session" planner_message
                           (service w)).2).2.
Proof.
  intros run. subst run. rewrite run_pipeline_initialized. cbv zeta.
  by do 2 eexists.
Qed.

(** X20. What the prompts hold: the planner's prompt holds the description,
    the domain, the standard and the risk level; the checker's prompt holds
    them too, and holds the planner's text, as it is, between two runs of
    three double quotes, the word None standing for a text that is
    [None]. *)
Theorem prompts_hold_their_inputs
        (dash description domain standard risk_level : string)
        (planner_text : option string) :
  Forall (fun piece =>
            PyStr.substring_of piece
              (planner_input description domain standard risk_level))
         [description; domain; standard; risk_level]
  /\ Forall (fun piece =>
               PyStr.substring_of piece
                 (checker_input dash description domain standard risk_level planner_text))
            [ description; domain; standard; risk_level;
              dquote +:+ dquote +:+ dquote
              +:+ match planner_text with Some s => s | None => "None" end
              +:+ dquote +:+ dquote +:+ dquote ].
Proof.
  split.
  - unfold planner_input.
    repeat (apply Forall_cons; split;
            [first [ apply (joined_piece [_; _])
                   | apply (joined_piece [_; _; _; _; _; _])
                   | apply (joined_piece [_; _; _; _; _; _; _; _; _])
                   | apply (joined_piece [_; _; _; _; _; _; _; _; _; _; _; _]) ]|]).
    apply Forall_nil_2.
  - unfold checker_input.
    repeat (apply Forall_cons; split;
            [first [ apply (joined_piece [_; _])
                   | apply (joined_piece [_; _; _; _; _; _])
                   | apply (joined_piece [_; _; _; _; _; _; _; _; _])
                   | apply (joined_piece [_; _; _; _; _; _; _; _; _; _; _; _])
                   | idtac ]|]); [|apply Forall_nil_2].
    replace (dquote +:+ dquote +:+ dquote
             +:+ match planner_text with Some s => s | None => "None" end
             +:+ dquote +:+ dquote +:+ dquote)
      with (joined [dquote; dquote; dquote; fmt planner_text; dquote; dquote; dquote])
      by (by destruct planner_text).
    apply (joined_infix [_; _; _; _; _; _; _; _; _; _; _; _; _; _; _; _; _]
                        [_; _; _; _; _; _; _]).
Qed.

(** X21. When the evaluation succeeds there is one row for each system, in
    the order of the systems; a row has the id, the name and the domain of
    its system, the risk level of its description, the number of its
    expected keywords, and a number of covered keywords that is not above
    it. *)
Theorem evaluate_systems_rows_match_systems
        (St : Type) (dash : string) (planner checker : option (Runner St))
        (systems : list System) (standard : string) (w : world St) (rows : list Row) :
  (evaluate_systems_rows St dash planner checker systems standard [] w).1 = Ok rows ->
  Forall2 (fun s row =>
             row_id row = sys_id s
             /\ row_name row = sys_name s
             /\ row_domain row = sys_domain s
             /\ row_risk row = risk_estimator_tool (sys_description s)
             /\ row_expected_topics row = len (sys_expected_must_have s)
             /\ 0 <= row_covered_topics row <= row_expected_topics row)
          systems rows.
Proof.
  intros (new & -> & Hall)%evaluate_systems_rows_ok. simpl.
  eapply Forall2_impl; [exact Hall|].
  intros s row [w' (t & _ & ->)%evaluate_one_row]. cbn.
  repeat split; try done; apply count_covered_bounds.
Qed.

Lemma evaluate_systems_rows_match_systems_witness :
  Forall2 (fun s row =>
             row_id row = sys_id s
             /\ row_name row = sys_name s
             /\ row_domain row = sys_domain s
             /\ row_risk row = risk_estimator_tool (sys_description s)
             /\ row_expected_topics row = len (sys_expected_must_have s)
             /\ 0 <= row_covered_topics row <= row_expected_topics row)
          [brake_ecu]
          [ {| row_id := "sys-1"; row_name := "Brake ECU"; row_domain := "automotive";
               row_risk := "high"; row_expected_topics := 2; row_covered_topics := 1;
               row_coverage_ratio := 1 # 2 |} ].
Proof.
  apply (evaluate_systems_rows_match_systems
           nat "-" (Some (reply_runner "plan")) (Some (reply_runner "HARA done"))
           [brake_ecu] "iso26262" {| service := 0%nat; trace := [] |}).
  reflexivity.
Defined.





(** X24. A final response whose first part has no text is not taken for an
    empty text: when the last final response with parts is such a one, the
    text kept is [None]. And when the pipeline returns [None] for a system,
    the evaluation fails there with an [AttributeError], in the world the
    pipeline left, and the systems after it are not run. *)
Theorem evaluation_fails_on_missing_text :
  (forall (events : list Event) (e : Event),
     last_final_with_parts events = Some e -> first_part_text e = None ->
     capture_text events (Some "") = None)
  /\ (forall (St : Type) (dash : string) (planner checker : option (Runner St))
             (s : System) (rest : list System) (standard : string) (w : world St),
        (run_pipeline_get_text St dash planner checker s standard w).1 = Ok None ->
        evaluate_systems_rows St dash planner checker (s :: rest) standard [] w
        = (Raise (AttributeError "'NoneType' object has no attribute 'lower'"),
           (run_pipeline_get_text St dash planner checker s standard w).2)).
Proof.
  split.
  - intros events e He Hnone. by rewrite capture_text_last, He.
  - intros St dash planner checker s rest standard w H.
    cbn [evaluate_systems_rows]. unfold evaluate_one. unfold bind.
    destruct (run_pipeline_get_text St dash planner checker s standard w) as [r w'].
    simpl in H. by subst r.
Qed.

Lemma evaluation_fails_on_missing_text_witness :
  evaluate_systems_rows nat "-" (Some (reply_runner "plan")) (Some no_text_runner)
                        [brake_ecu; brake_ecu_no_topics] "iso26262" []
                        {| service := 0%nat; trace := [] |}
  = (Raise (AttributeError "'NoneType' object has no attribute 'lower'"),
     (run_pipeline_get_text nat "-" (Some (reply_runner "plan")) (Some no_text_runner)
                            brake_ecu "iso26262"
                            {| service := 0%nat; trace := [] |}).2).
Proof.
  apply (proj2 evaluation_fails_on_missing_text). reflexivity.
Defined.

(** ** The setup of the runners *)

Section AgentsFacts.
Context (St Agent : Type).
Context (create_session : string -> string -> string -> St -> result unit * St).
Context (make_runner : Agent -> string -> Runner St).

(** What a call of the setup leaves in the globals. *)
Lemma setup_sessions_and_runners_cases (g : agents_globals St Agent) (s : St) :
  let '(r, g', s') := setup_sessions_and_runners St Agent create_session make_runner g s in
  (exists e, r = Raise e /\ g' = g)
  \/ (r = Ok tt
      /\ planner_agent g' = planner_agent g
      /\ checker_agent g' = checker_agent g
      /\ planner_runner g'
         = match planner_agent g with
           | Some agent => Some (make_runner agent APP_NAME)
           | None => planner_runner g
           end
      /\ checker_runner g'
         = match checker_agent g with
           | Some agent => Some (make_runner agent APP_NAME)
           | None => checker_runner g
           end).
Proof.
  unfold setup_sessions_and_runners.
  destruct (create_session _ _ _ s) as [[[]|e] s1]; [|left; by exists e].
  destruct (create_session _ _ _ s1) as [[[]|e] s2]; [|left; by exists e].
  right. destruct g as [[pa|] [ca|] pr cr]; by cbn.
Qed.

End AgentsFacts.

(** X25. A setup that fails, because a session cannot be created, makes no
    runner: the globals are as they were. A setup that succeeds leaves the
    agents as they were and a runner for each agent at hand; for a missing
    agent the runner is left as it was. *)
Theorem setup_sessions_and_runners_spec
        (St Agent : Type)
        (create_session : string -> string -> string -> St -> result unit * St)
        (make_runner : Agent -> string -> Runner St)
        (g : agents_globals St Agent) (s : St) :
  let run := setup_sessions_and_runners St Agent create_session make_runner g s in
  (forall e, run.1.1 = Raise e -> run.1.2 = g)
  /\ (run.1.1 = Ok tt ->
      planner_agent run.1.2 = planner_agent g
      /\ checker_agent run.1.2 = checker_agent g
      /\ (is_Some (planner_runner run.1.2)
          <-> is_Some (planner_agent g) \/ is_Some (planner_runner g))
      /\ (is_Some (checker_runner run.1.2)
          <-> is_Some (checker_agent g) \/ is_Some (checker_runner g))).
Proof.
  intros run. subst run.
  pose proof (setup_sessions_and_runners_cases St Agent create_session make_runner g s)
    as H.
  destruct (setup_sessions_and_runners St Agent create_session make_runner g s)
    as [[r g'] s'].
  cbn [fst snd]. destruct H as [(e & -> & ->)|(-> & Hpa & Hca & Hpr & Hcr)].
  - split; [done|]. intros [=].
  - split; [intros e [=]|]. intros _. rewrite Hpr, Hcr.
    split; [done|]. split; [done|]. split.
    + destruct (planner_agent g);
        [split; [left; by eexists|by eexists]|split; [by right|by intros [[? [=]]|?]]].
    + destruct (checker_agent g);
        [split; [left; by eexists|by eexists]|split; [by right|by intros [[? [=]]|?]]].
Qed.

Lemma setup_sessions_and_runners_spec_witness :
  planner_agent (setup_sessions_and_runners
                   nat string counting_create_session named_runner
                   (agents_loaded nat string (Some "planner_agent") None) 0%nat).1.2
  = planner_agent (agents_loaded nat string (Some "planner_agent") None)
  /\ checker_agent (setup_sessions_and_runners
                      nat string counting_create_session named_runner
                      (agents_loaded nat string (Some "planner_agent") None) 0%nat).1.2
     = checker_agent (agents_loaded nat string (Some "planner_agent") None)
  /\ (is_Some (planner_runner
                 (setup_sessions_and_runners
                    nat string counting_create_session named_runner
                    (agents_loaded nat string (Some "planner_agent") None) 0%nat).1.2)
      <-> is_Some (planner_agent (agents_loaded nat string (Some "planner_agent") None))
          \/ is_Some (planner_runner (agents_loaded nat string (Some "planner_agent") None)))
  /\ (is_Some (checker_runner
                 (setup_sessions_and_runners
                    nat string counting_create_session named_runner
                    (agents_loaded nat string (Some "planner_agent") None) 0%nat).1.2)
      <-> is_Some (checker_agent (agents_loaded nat string (Some "planner_agent") None))
          \/ is_Some (checker_runner (agents_loaded nat string (Some "planner_agent") None))).
Proof.
  apply (proj2 (setup_sessions_and_runners_spec
                  nat string counting_create_session named_runner
                  (agents_loaded nat string (Some "planner_agent") None) 0%nat)).
  reflexivity.
Defined.

(** X26. After a setup that succeeds on the freshly loaded module, the
    pipeline of an eval.py loaded then raises the "not initialized" error
    exactly when one of the two agents is missing. *)
Theorem pipeline_after_setup
        (St Agent : Type)
        (create_session : string -> string -> string -> St -> result unit * St)
        (make_runner : Agent -> string -> Runner St)
        (dash : string) (planner checker : option Agent) (s : St)
        (system : System) (standard : string) (w : world St) :
  let run := setup_sessions_and_runners St Agent create_session make_runner
               (agents_loaded St Agent planner checker) s in
  run.1.1 = Ok tt ->
  ((eval_run_pipeline_get_text St dash (from_agents_import St Agent run.1.2)
                               system standard w).1
   = Raise (RuntimeError "Agents (Planner/Checker) are not initialized.")
   <-> planner = None \/ checker = None).
Proof.
  intros run. subst run.
  pose proof (setup_sessions_and_runners_cases
                St Agent create_session make_runner
                (agents_loaded St Agent planner checker) s) as H.
  destruct (setup_sessions_and_runners St Agent create_session make_runner _ s)
    as [[r g'] s'].
  cbn [fst snd]. intros ->. destruct H as [(e & [=] & _)|(_ & _ & _ & Hpr & Hcr)].
  unfold eval_run_pipeline_get_text, from_agents_import.
  cbn [eval_planner_runner eval_checker_runner]. rewrite Hpr, Hcr. cbn.
  destruct planner as [pa|], checker as [ca|];
    try (rewrite run_pipeline_uninitialized by tauto; split; [tauto|done]).
  rewrite run_pipeline_initialized. cbv zeta. cbn [fst].
  split; [done|by intros [|]].
Qed.

Lemma pipeline_after_setup_witness :
  (eval_run_pipeline_get_text
     nat "-"
     (from_agents_import nat string
        (setup_sessions_and_runners
           nat string counting_create_session named_runner
           (agents_loaded nat string (Some "planner_agent") None) 0%nat).1.2)
     brake_ecu "iso26262" {| service := 2%nat; trace := [] |}).1
  = Raise (RuntimeError "Agents (Planner/Checker) are not initialized.").
Proof.
  apply (proj2 (pipeline_after_setup
                  nat string counting_create_session named_runner "-"
                  (Some "planner_agent") None 0%nat
                  brake_ecu "iso26262" {| service := 2%nat; trace := [] |} eq_refl)).
  by right.
Defined.

(** X27. The two names of eval.py keep the values they had when eval.py
    was loaded: if that was before the setup, on the freshly loaded module,
    the pipeline raises the "not initialized" error and takes no step, even
    though the setup has since made both runners in agents.py. *)
Theorem pipeline_imported_before_setup
        (St Agent : Type)
        (create_session : string -> string -> string -> St -> result unit * St)
        (make_runner : Agent -> string -> Runner St)
        (dash : string) (planner checker : Agent) (s : St)
        (system : System) (standard : string) (w : world St) :
  let loaded := agents_loaded St Agent (Some planner) (Some checker) in
  let names := from_agents_import St Agent loaded in
  let run := setup_sessions_and_runners St Agent create_session make_runner loaded s in
  run.1.1 = Ok tt ->
  is_Some (planner_runner run.1.2)
  /\ is_Some (checker_runner run.1.2)
  /\ eval_run_pipeline_get_text St dash names system standard w
     = (Raise (RuntimeError "Agents (Planner/Checker) are not initialized."), w).
Proof.
  intros loaded names run. subst run names loaded.
  pose proof (setup_sessions_and_runners_cases
                St Agent create_session make_runner
                (agents_loaded St Agent (Some planner) (Some checker)) s) as H.
  destruct (setup_sessions_and_runners St Agent create_session make_runner _ s)
    as [[r g'] s'].
  cbn [fst snd]. intros ->. destruct H as [(e & [=] & _)|(_ & _ & _ & Hpr & Hcr)].
  rewrite Hpr, Hcr. cbn. split; [by eexists|]. split; [by eexists|done].
Qed.

Lemma pipeline_imported_before_setup_witness :
  is_Some (planner_runner
             (setup_sessions_and_runners
                nat string counting_create_session named_runner
                (agents_loaded nat string (Some "planner_agent") (Some "checker_agent"))
                0%nat).1.2)
  /\ is_Some (checker_runner
                (setup_sessions_and_runners
                   nat string counting_create_session named_runner
                   (agents_loaded nat string (Some "planner_agent") (Some "checker_agent"))
                   0%nat).1.2)
  /\ eval_run_pipeline_get_text
       nat "-"
       (from_agents_import nat string
          (agents_loaded nat string (Some "planner_agent") (Some "checker_agent")))
       brake_ecu "iso26262" {| service := 2%nat; trace := [] |}
     = (Raise (RuntimeError "Agents (Planner/Checker) are not initialized."),
        {| service := 2%nat; trace := [] |}).
Proof.
  apply (pipeline_imported_before_setup
           nat string counting_create_session named_runner "-"
           "planner_agent" "checker_agent" 0%nat
           brake_ecu "iso26262" {| service := 2%nat; trace := [] |}).
  reflexivity.
Defined.
